(** * StaggKettle: the protocol layer of [stagg_kettle.py]

    A shallow embedding of the BLE/MQTT bridge for the Fellow Stagg EKG+
    kettle: the module constants built with [bytes.fromhex], the two uses
    of [struct] ([pack] and [unpack]), the notification delegate with its
    publishing property setters, and the command methods of the bridge.

    Python values are embedded as follows.
    - [bytes] is [list byte]; an [int] is a [Z] (Python integers are
      unbounded); a [str] is a [string] holding its UTF-8 encoding.
    - An attribute that holds [None], an [int] or a [str] at different
      times is a [PyVal].
    - A raised exception is the [Raise] outcome of a computation in the
      monad [M], which threads the object that the method mutates; the
      state returned next to [Raise] is the object as the exception left
      it. *)

From Stdlib Require Import ZArith List Bool Lia.
From Stdlib Require Import Strings.String Strings.Ascii Strings.Byte.
Import ListNotations.

Open Scope string_scope.
Open Scope Z_scope.

(** ** Exceptions and the state-and-exception monad *)

Inductive exn : Type :=
| StructError          (* struct.error *)
| ValueError           (* bytes.fromhex on a bad literal, tuple unpacking *)
| IndexError           (* subscript out of range *)
| UnicodeDecodeError.  (* bytes.decode on ill-formed UTF-8 *)

Inductive result (A : Type) : Type :=
| Ok (a : A)
| Raise (e : exn).

Arguments Ok {A} a.
Arguments Raise {A} e.

Definition M (S A : Type) : Type := S -> result A * S.

Definition ret {S A} (a : A) : M S A := fun s => (Ok a, s).

Definition bind {S A B} (m : M S A) (k : A -> M S B) : M S B :=
  fun s =>
    match m s with
    | (Ok a, s') => k a s'
    | (Raise e, s') => (Raise e, s')
    end.

Definition lift {S A} (r : result A) : M S A := fun s => (r, s).

Definition gets {S A} (f : S -> A) : M S A := fun s => (Ok (f s), s).

Definition modify {S} (f : S -> S) : M S unit := fun s => (Ok tt, f s).

Declare Scope py_scope.
Delimit Scope py_scope with py.
Notation "x <- m ;; k" := (bind m (fun x => k))
  (at level 61, m at next level, right associativity) : py_scope.
Notation "m ;; k" := (bind m (fun _ => k))
  (at level 61, right associativity) : py_scope.
Open Scope py_scope.

(** ** Bytes *)

Definition bytes : Type := list byte.

(** The [int] that indexing or ['B'] gives for a byte. *)
Definition int_of_byte (b : byte) : Z := Z.of_N (Byte.to_N b).

(** The byte of an [int], defined on [0..255] only. *)
Definition byte_of_int (z : Z) : option byte :=
  if (0 <=? z) && (z <=? 255) then Byte.of_N (Z.to_N z) else None.

Definition byte_eqb (a b : byte) : bool := Byte.eqb a b.

(** [data.startswith(prefix)] *)
Fixpoint startswith (data prefix : bytes) : bool :=
  match prefix, data with
  | [], _ => true
  | p :: prefix', b :: data' => byte_eqb b p && startswith data' prefix'
  | _ :: _, [] => false
  end.

(** [len(data)] *)
Definition len (data : bytes) : Z := Z.of_nat (List.length data).

(** *** [bytes.fromhex] *)

Definition hex_digit (c : ascii) : option N :=
  let n := N_of_ascii c in
  if (48 <=? n)%N && (n <=? 57)%N then Some (n - 48)%N
  else if (97 <=? n)%N && (n <=? 102)%N then Some (n - 87)%N
  else if (65 <=? n)%N && (n <=? 70)%N then Some (n - 55)%N
  else None.

Definition is_space (c : ascii) : bool :=
  let n := N_of_ascii c in
  ((9 <=? n)%N && (n <=? 13)%N) || (n =? 32)%N.

(** Two hexadecimal digits per byte; ASCII whitespace is skipped before a
    pair; anything else, or a digit left alone, is a [ValueError]. *)
Fixpoint fromhex (s : string) : result bytes :=
  match s with
  | EmptyString => Ok []
  | String c s' =>
      if is_space c then fromhex s'
      else
        match s' with
        | EmptyString => Raise ValueError
        | String d s'' =>
            match hex_digit c, hex_digit d with
            | Some hi, Some lo =>
                match Byte.of_N (16 * hi + lo), fromhex s'' with
                | Some b, Ok rest => Ok (b :: rest)
                | _, _ => Raise ValueError
                end
            | _, _ => Raise ValueError
            end
        end
  end.

(** The value a module-level [NAME = bytes.fromhex(literal)] binds. *)
Definition fromhex_const (s : string) : bytes :=
  match fromhex s with
  | Ok b => b
  | Raise _ => []
  end.

(** *** [struct.pack] and [struct.unpack] for the codes the module uses:
    ['B'] (unsigned char) and ['x'] (pad byte). *)

Fixpoint struct_unpack (fmt : string) (data : bytes) : result (list Z) :=
  match fmt, data with
  | EmptyString, [] => Ok []
  | String "B" fmt', b :: data' =>
      match struct_unpack fmt' data' with
      | Ok vs => Ok (int_of_byte b :: vs)
      | Raise e => Raise e
      end
  | String "x" fmt', _ :: data' => struct_unpack fmt' data'
  | _, _ => Raise StructError
  end.

Fixpoint struct_pack (fmt : string) (args : list Z) : result bytes :=
  match fmt with
  | EmptyString =>
      match args with
      | [] => Ok []
      | _ :: _ => Raise StructError
      end
  | String "B" fmt' =>
      match args with
      | v :: args' =>
          match byte_of_int v, struct_pack fmt' args' with
          | Some b, Ok rest => Ok (b :: rest)
          | _, _ => Raise StructError
          end
      | [] => Raise StructError
      end
  | String "x" fmt' =>
      match struct_pack fmt' args with
      | Ok rest => Ok (x00 :: rest)
      | Raise e => Raise e
      end
  | String _ _ => Raise StructError
  end.

(** [t[0]] on the tuple that [struct.unpack] returns. *)
Definition item0 (t : list Z) : result Z :=
  match t with
  | v :: _ => Ok v
  | [] => Raise IndexError
  end.

(** [(a, b) = t] *)
Definition pair_of (t : list Z) : result (Z * Z) :=
  match t with
  | [a; b] => Ok (a, b)
  | _ => Raise ValueError
  end.

(** ** Module constants *)

(** sequence to send to interact with Kettle *)
Definition INIT_SEQ : bytes := Eval vm_compute in
  fromhex_const "efdd0b3031323334353637383930313233349a6d".

(** sequence to turn Kettle on *)
Definition POWER_ON_SEQ : bytes := Eval vm_compute in
  fromhex_const "efdd0a0000010100".

(** sequence to turn Kettle off *)
Definition POWER_OFF_SEQ : bytes := Eval vm_compute in
  fromhex_const "efdd0a0000000000".

(** sequence to get temperature and state data from kettle *)
Definition SETUP_DATA_SEQ : bytes := Eval vm_compute in
  fromhex_const "0100".

(** initial bytes for setting temperature *)
Definition TARGET_TEMP_HDR : bytes := Eval vm_compute in
  fromhex_const "efdd0a".

(** *** [bytes.decode("utf-8")]

    A [str] is kept as its UTF-8 encoding, so decoding is the check that
    the bytes are well-formed UTF-8 (shortest form, no surrogates, at most
    U+10FFFF); ill-formed input raises [UnicodeDecodeError]. *)

Definition in_range (lo hi : N) (b : byte) : bool :=
  ((lo <=? Byte.to_N b) && (Byte.to_N b <=? hi))%N.

Definition is_cont (b : byte) : bool := in_range 0x80 0xBF b.

Definition second_of_3 (b0 b1 : byte) : bool :=
  if byte_eqb b0 xe0 then in_range 0xA0 0xBF b1
  else if byte_eqb b0 xed then in_range 0x80 0x9F b1
  else is_cont b1.

Definition second_of_4 (b0 b1 : byte) : bool :=
  if byte_eqb b0 xf0 then in_range 0x90 0xBF b1
  else if byte_eqb b0 xf4 then in_range 0x80 0x8F b1
  else is_cont b1.

Fixpoint utf8_valid (d : bytes) : bool :=
  match d with
  | [] => true
  | b0 :: r1 =>
      if in_range 0x00 0x7F b0 then utf8_valid r1
      else
        match r1 with
        | [] => false
        | b1 :: r2 =>
            if in_range 0xC2 0xDF b0 then is_cont b1 && utf8_valid r2
            else
              match r2 with
              | [] => false
              | b2 :: r3 =>
                  if in_range 0xE0 0xEF b0
                  then second_of_3 b0 b1 && is_cont b2 && utf8_valid r3
                  else
                    match r3 with
                    | [] => false
                    | b3 :: r4 =>
                        in_range 0xF0 0xF4 b0 && second_of_4 b0 b1
                        && is_cont b2 && is_cont b3 && utf8_valid r4
                    end
              end
        end
  end.

Definition decode_utf8 (d : bytes) : result string :=
  if utf8_valid d then Ok (string_of_list_byte d) else Raise UnicodeDecodeError.

(** ** Dynamically typed attribute values *)

Inductive PyVal : Type :=
| PyNone
| PyInt (z : Z)
| PyStr (s : string).

(** [a == b] on such values: values of different types are never equal. *)
Definition py_eq (a b : PyVal) : bool :=
  match a, b with
  | PyNone, PyNone => true
  | PyInt x, PyInt y => x =? y
  | PyStr s, PyStr t => String.eqb s t
  | _, _ => false
  end.

(** [a != b] *)
Definition py_ne (a b : PyVal) : bool := negb (py_eq a b).

(** ** The collaborators: MQTT client and standard output *)

Record Publication : Type := mkPublication {
  topic : string;
  payload : PyVal;
  qos : Z;
  retain : bool
}.

Module MqttClient.

Record t : Type := mk {
  published : list Publication;   (* every publish(), oldest first *)
  subscriptions : list string;    (* every subscribe(), oldest first *)
  will : option Publication       (* will_set() *)
}.

Definition publish (p : Publication) (c : t) : t :=
  mk (published c ++ [p]) (subscriptions c) (will c).

Definition subscribe (tp : string) (c : t) : t :=
  mk (published c) (subscriptions c ++ [tp]) (will c).

Definition will_set (p : Publication) (c : t) : t :=
  mk (published c) (subscriptions c) (Some p).

End MqttClient.

(** What a [print] call shows. *)
Inductive Line : Type :=
| Text (s : string)
| Repr (data : bytes)
| SettingTemperature (desired_temp : Z)
| Status (power target_temp target_temp_scale
          current_temp current_temp_scale : PyVal).

Module StaggKettle.

Module MessageTypes.
Definition POWER         : Z := 0.
Definition HOLD          : Z := 1.
Definition TARGET_TEMP   : Z := 2.
Definition CURRENT_TEMP  : Z := 3.
Definition COUNTDOWN     : Z := 4.
Definition UNK_1         : Z := 5.
Definition HOLDING       : Z := 6.
Definition UNK_2         : Z := 7.
Definition KETTLE_LIFTED : Z := 8.
End MessageTypes.

(** *** The notification delegate *)
Module MyDelegate.

Record t : Type := mk {
  client : MqttClient.t;
  _power : PyVal;
  _target_temp : PyVal;
  _current_temp : PyVal;
  _target_temp_scale : PyVal;
  _current_temp_scale : PyVal;
  last_message_type : option Z;
  changed : bool;
  stdout : list Line
}.

Definition __init__ (mqtt_client : MqttClient.t) : t :=
  mk mqtt_client PyNone PyNone PyNone PyNone PyNone None false [].

Definition with_client (v : MqttClient.t) (d : t) : t :=
  mk v (_power d) (_target_temp d) (_current_temp d)
     (_target_temp_scale d) (_current_temp_scale d)
     (last_message_type d) (changed d) (stdout d).

Definition with_power (v : PyVal) (d : t) : t :=
  mk (client d) v (_target_temp d) (_current_temp d)
     (_target_temp_scale d) (_current_temp_scale d)
     (last_message_type d) (changed d) (stdout d).

Definition with_target_temp (v : PyVal) (d : t) : t :=
  mk (client d) (_power d) v (_current_temp d)
     (_target_temp_scale d) (_current_temp_scale d)
     (last_message_type d) (changed d) (stdout d).

Definition with_current_temp (v : PyVal) (d : t) : t :=
  mk (client d) (_power d) (_target_temp d) v
     (_target_temp_scale d) (_current_temp_scale d)
     (last_message_type d) (changed d) (stdout d).

Definition with_target_temp_scale (v : PyVal) (d : t) : t :=
  mk (client d) (_power d) (_target_temp d) (_current_temp d)
     v (_current_temp_scale d)
     (last_message_type d) (changed d) (stdout d).

Definition with_current_temp_scale (v : PyVal) (d : t) : t :=
  mk (client d) (_power d) (_target_temp d) (_current_temp d)
     (_target_temp_scale d) v
     (last_message_type d) (changed d) (stdout d).

Definition with_last_message_type (v : option Z) (d : t) : t :=
  mk (client d) (_power d) (_target_temp d) (_current_temp d)
     (_target_temp_scale d) (_current_temp_scale d)
     v (changed d) (stdout d).

Definition with_changed (v : bool) (d : t) : t :=
  mk (client d) (_power d) (_target_temp d) (_current_temp d)
     (_target_temp_scale d) (_current_temp_scale d)
     (last_message_type d) v (stdout d).

Definition with_stdout (v : list Line) (d : t) : t :=
  mk (client d) (_power d) (_target_temp d) (_current_temp d)
     (_target_temp_scale d) (_current_temp_scale d)
     (last_message_type d) (changed d) v.

(** [self.client.publish(topic, value)] *)
Definition publish (tp : string) (value : PyVal) : M t unit :=
  modify (fun d =>
    with_client
      (MqttClient.publish (mkPublication tp value 0 false) (client d)) d).

Definition print (l : Line) : M t unit :=
  modify (fun d => with_stdout (stdout d ++ [l]) d).

Definition _on_change : M t unit := modify (with_changed true).

(** [@power.setter] *)
Definition power_setter (value : PyVal) : M t unit :=
  cur <- gets _power ;;
  (if py_ne cur value
   then publish "homeassistant/switch/kettle/state" value ;; _on_change
   else ret tt) ;;
  modify (with_power value).

(** [@target_temp.setter] *)
Definition target_temp_setter (value : PyVal) : M t unit :=
  cur <- gets _target_temp ;;
  (if py_ne cur value
   then publish "kitchen/kettle/temperature/target" value ;; _on_change
   else ret tt) ;;
  modify (with_target_temp value).

(** [@current_temp.setter]; it is only ever handed an unpacked ['B'].
    valid values are 40 - 100 C, or 104 - 212 F;
    normally shows 32 when off *)
Definition current_temp_setter (value : Z) : M t unit :=
  let value := if value <? 40 then PyStr "--" else PyInt value in
  cur <- gets _current_temp ;;
  (if py_ne cur value
   then publish "homeassistant/sensor/kettle/temperature" value ;;
        _on_change
   else ret tt) ;;
  modify (with_current_temp value).

Definition degF : string := "°F".
Definition degC : string := "°C".

(** [@target_temp_scale.setter] *)
Definition target_temp_scale_setter (value : Z) : M t unit :=
  let scale := PyStr (if value =? 1 then degF else degC) in
  cur <- gets _target_temp_scale ;;
  (if py_ne cur scale
   then publish "kitchen/kettle/temperature/target/scale" scale ;;
        _on_change
   else ret tt) ;;
  modify (with_target_temp_scale scale).

(** [@current_temp_scale.setter] *)
Definition current_temp_scale_setter (value : Z) : M t unit :=
  let scale := PyStr (if value =? 1 then degF else degC) in
  cur <- gets _current_temp_scale ;;
  (if py_ne cur scale
   then publish "kitchen/kettle/temperature/scale" scale ;; _on_change
   else ret tt) ;;
  modify (with_current_temp_scale scale).

Definition handleNotification (cHandle : Z) (data : bytes) : M t unit :=
  lmt <- gets last_message_type ;;
  match lmt with
  | Some ty =>
      (if ty =? MessageTypes.POWER then
         tup <- lift (struct_unpack "Bxx" data) ;;
         power_value <- lift (item0 tup) ;;
         if power_value =? 0 then power_setter (PyStr "off")
         else if power_value =? 1 then power_setter (PyStr "on")
         else print (Text "Unknown Power Setting") ;; print (Repr data)
       else if ty =? MessageTypes.TARGET_TEMP then
         tup <- lift (struct_unpack "BBxx" data) ;;
         ab <- lift (pair_of tup) ;;
         target_temp_setter (PyInt (fst ab)) ;;
         target_temp_scale_setter (snd ab)
       else if ty =? MessageTypes.CURRENT_TEMP then
         tup <- lift (struct_unpack "BBxx" data) ;;
         ab <- lift (pair_of tup) ;;
         current_temp_setter (fst ab) ;;
         current_temp_scale_setter (snd ab)
       else ret tt) ;;
      (* reset last_message *)
      modify (with_last_message_type None)
  | None =>
      if startswith data [xef; xdd] && (len data =? 3) then
        tup <- lift (struct_unpack "xxB" data) ;;
        ty <- lift (item0 tup) ;;
        modify (with_last_message_type (Some ty))
      else ret tt
  end ;;
  c <- gets changed ;;
  if c then
    d <- gets (fun d => d) ;;
    print (Status (_power d) (_target_temp d) (_target_temp_scale d)
                  (_current_temp d) (_current_temp_scale d)) ;;
    modify (with_changed false)
  else ret tt.

(** The notifications of a session, handed over one chunk at a time;
    an exception ends the session where it is raised. *)
Fixpoint feed (chunks : list bytes) : M t unit :=
  match chunks with
  | [] => ret tt
  | data :: rest => handleNotification 0 data ;; feed rest
  end.

End MyDelegate.

(** *** The bridge object

    [written] is the record of [self.characteristics.write]: the frames
    sent to the kettle, oldest first.  Opening the BLE link and the
    broker socket are the collaborators' business and are taken to
    succeed; [__init__], [setup_autodiscovery] and [main_loop] only
    drive those collaborators and are not embedded. *)

Record t : Type := mk {
  connected : bool;
  current_state : string;
  client : MqttClient.t;
  written : list bytes;
  stdout : list Line
}.

(** The message object that the MQTT client hands to [on_message]. *)
Record MQTTMessage : Type := mkMessage {
  msg_topic : string;
  msg_payload : bytes
}.

Definition with_connected (v : bool) (k : t) : t :=
  mk v (current_state k) (client k) (written k) (stdout k).

Definition with_current_state (v : string) (k : t) : t :=
  mk (connected k) v (client k) (written k) (stdout k).

Definition with_client (v : MqttClient.t) (k : t) : t :=
  mk (connected k) (current_state k) v (written k) (stdout k).

Definition print (l : Line) : M t unit :=
  modify (fun k => mk (connected k) (current_state k) (client k)
                      (written k) (stdout k ++ [l])).

(** [self.characteristics.write(frame)] *)
Definition characteristics_write (frame : bytes) : M t unit :=
  modify (fun k => mk (connected k) (current_state k) (client k)
                      (written k ++ [frame]) (stdout k)).

Definition client_publish (p : Publication) : M t unit :=
  modify (fun k => with_client (MqttClient.publish p (client k)) k).

Definition client_subscribe (tp : string) : M t unit :=
  modify (fun k => with_client (MqttClient.subscribe tp (client k)) k).

Definition connect : M t unit :=
  c <- gets connected ;;
  if c then ret tt
  else
    print (Text "Connecting...") ;;
    characteristics_write INIT_SEQ ;;
    modify (fun k =>
      with_client
        (MqttClient.will_set
           (mkPublication "kitchen/kettle/available" (PyStr "offline")
                          0 true)
           (client k)) k) ;;
    modify (with_connected true).

(** The callback for when the client receives a CONNACK response from
    the server. *)
Definition on_connect : M t unit :=
  client_publish
    (mkPublication "kitchen/kettle/available" (PyStr "online") 0 true) ;;
  client_subscribe "homeassistant/switch/kettle/set" ;;
  client_subscribe "kitchen/kettle/temperature/set".

Definition power_on : M t unit :=
  c <- gets connected ;;
  (if negb c then connect else ret tt) ;;
  print (Text "Powering on") ;;
  characteristics_write POWER_ON_SEQ ;;
  modify (with_current_state "on").

Definition power_off : M t unit :=
  c <- gets connected ;;
  (if negb c then connect else ret tt) ;;
  print (Text "Powering off") ;;
  characteristics_write POWER_OFF_SEQ ;;
  modify (with_current_state "off").

(** The callback for when a PUBLISH message is received from the
    server. *)
Definition on_message (msg : MQTTMessage) : M t unit :=
  payload <- lift (decode_utf8 (msg_payload msg)) ;;
  (if String.eqb payload "on" then power_on
   else if String.eqb payload "off" then power_off
   else ret tt) ;;
  client_publish
    (mkPublication "homeassistant/switch/kettle/state" (PyStr payload)
                   0 false).

Definition set_temperature (desired_temp : Z) : M t unit :=
  c <- gets connected ;;
  (if negb c then connect else ret tt) ;;
  print (SettingTemperature desired_temp) ;;
  let seq_num := 0 in
  target_temp_body <-
    lift (struct_pack "BBBB"
            [seq_num; desired_temp; seq_num + desired_temp mod 256; 1]) ;;
  let target_temp := (TARGET_TEMP_HDR ++ target_temp_body)%list in
  characteristics_write target_temp.

(** [self.peripheral.disconnect()] closes the BLE link, which is the
    collaborator's business; what the bridge keeps is the flag. *)
Definition disconnect : M t unit :=
  print (Text "Disconnecting...") ;;
  power_off ;;
  modify (with_connected false).

End StaggKettle.

Import StaggKettle.

(** ** Vocabulary of the statements *)

(** The mirror of the device and the record of publications are the same
    in [d'] as in [d]: nothing was published and no field was assigned a
    different value. *)
Definition unchanged (d d' : MyDelegate.t) : Prop :=
  MyDelegate.client d' = MyDelegate.client d /\
  MyDelegate._power d' = MyDelegate._power d /\
  MyDelegate._target_temp d' = MyDelegate._target_temp d /\
  MyDelegate._target_temp_scale d' = MyDelegate._target_temp_scale d /\
  MyDelegate._current_temp d' = MyDelegate._current_temp d /\
  MyDelegate._current_temp_scale d' = MyDelegate._current_temp_scale d.

(** The decoder waits for a header. *)
Definition awaiting_header (d : MyDelegate.t) : Prop :=
  MyDelegate.last_message_type d = None.

(** The decoder waits for the payload of message type [ty]. *)
Definition awaiting_payload (ty : Z) (d : MyDelegate.t) : Prop :=
  MyDelegate.last_message_type d = Some ty.

(** The header chunk that announces message type [ty]. *)
Definition header (ty : byte) : bytes := [xef; xdd; ty].

(** At most one message type is pending, and it is the type byte of a
    header. *)
Definition pending_ok (d : MyDelegate.t) : Prop :=
  awaiting_header d \/ exists ty : byte, awaiting_payload (int_of_byte ty) d.

(** The length that the [struct] format of the pending type demands of
    the payload chunk: 3 bytes for POWER (['Bxx']), 4 bytes for TARGET_TEMP
    and CURRENT_TEMP (['BBxx']); a chunk for any other type is not
    unpacked. *)
Definition payload_fits (ty : Z) (data : bytes) : bool :=
  if ty =? MessageTypes.POWER then len data =? 3
  else if (ty =? MessageTypes.TARGET_TEMP) || (ty =? MessageTypes.CURRENT_TEMP)
       then len data =? 4
  else true.

(** The delegate as [main_loop] installs it, on a client that has
    published [log] so far. *)
Definition fresh (log : list Publication) : MyDelegate.t :=
  MyDelegate.__init__ (MqttClient.mk log [] None).

Definition pending (ty : Z) (d : MyDelegate.t) : MyDelegate.t :=
  MyDelegate.with_last_message_type (Some ty) d.

(** The fresh delegate after it was told a target of 90 degrees
    Fahrenheit: header [EF DD 02], payload [5A 01 00 00]. *)
Definition target_90F : MyDelegate.t := Eval vm_compute in
  snd (MyDelegate.feed [[xef; xdd; x02]; [x5a; x01; x00; x00]] (fresh [])).

(** The values the kettle accepts as a temperature: 40 - 100 C, or
    104 - 212 F (the comment in the [current_temp] setter). *)
Definition in_device_range (v : Z) : Prop :=
  40 <= v <= 100 \/ 104 <= v <= 212.

(** The bridge once [connect()] has returned. *)
Definition link_up (k : StaggKettle.t) : StaggKettle.t := snd (connect k).

Definition switch_state_topic : string := "homeassistant/switch/kettle/state".

(** The fresh delegate after it saw the kettle switched on: header
    [EF DD 00], payload [01 00 00]. *)
Definition power_on_seen : MyDelegate.t := Eval vm_compute in
  snd (MyDelegate.feed [[xef; xdd; x00]; [x01; x00; x00]] (fresh [])).

(** A publication with the default [qos] and [retain]. *)
Definition pub (tp : string) (v : PyVal) : Publication :=
  mkPublication tp v 0 false.

(** What a setter publishes when [old] is stored and [new] is assigned. *)
Definition publish_if_new (old new : PyVal) (tp : string)
  : list Publication :=
  if py_ne old new then [pub tp new] else [].

(** The scale that a scale byte stands for. *)
Definition scale_of (b : byte) : PyVal :=
  PyStr (if int_of_byte b =? 1 then MyDelegate.degF else MyDelegate.degC).

(** The reading that a current-temperature byte stands for. *)
Definition reading_of (b : byte) : PyVal :=
  if int_of_byte b <? 40 then PyStr "--" else PyInt (int_of_byte b).

(** The header test of [handleNotification]. *)
Definition is_header (data : bytes) : bool :=
  startswith data [xef; xdd] && (len data =? 3).

(** The values that the fields of the mirror can hold. *)
Definition is_scale (v : PyVal) : Prop :=
  v = PyNone \/ v = PyStr MyDelegate.degF \/ v = PyStr MyDelegate.degC.

Definition mirror_ok (d : MyDelegate.t) : Prop :=
  (MyDelegate._power d = PyNone \/ MyDelegate._power d = PyStr "on" \/
   MyDelegate._power d = PyStr "off") /\
  (MyDelegate._target_temp d = PyNone \/
   exists z, 0 <= z <= 255 /\ MyDelegate._target_temp d = PyInt z) /\
  (MyDelegate._current_temp d = PyNone \/
   MyDelegate._current_temp d = PyStr "--" \/
   exists z, 40 <= z <= 255 /\ MyDelegate._current_temp d = PyInt z) /\
  is_scale (MyDelegate._target_temp_scale d) /\
  is_scale (MyDelegate._current_temp_scale d).

(** The topics the delegate publishes on, each with the payloads it can
    carry. *)
Definition pub_ok (p : Publication) : Prop :=
  qos p = 0 /\ retain p = false /\
  ((topic p = "homeassistant/switch/kettle/state" /\
    (payload p = PyStr "on" \/ payload p = PyStr "off")) \/
   (topic p = "kitchen/kettle/temperature/target" /\
    exists z, 0 <= z <= 255 /\ payload p = PyInt z) \/
   (topic p = "kitchen/kettle/temperature/target/scale" /\
    (payload p = PyStr MyDelegate.degF \/ payload p = PyStr MyDelegate.degC)) \/
   (topic p = "homeassistant/sensor/kettle/temperature" /\
    (payload p = PyStr "--" \/
     exists z, 40 <= z <= 255 /\ payload p = PyInt z)) \/
   (topic p = "kitchen/kettle/temperature/scale" /\
    (payload p = PyStr MyDelegate.degF \/ payload p = PyStr MyDelegate.degC))).

(** A frame opens with the two magic bytes. *)
Definition frame_ok (frame : bytes) : Prop :=
  startswith frame [xef; xdd] = true.

(** The frames that the switch commands and [connect] send. *)
Definition switch_frame (frame : bytes) : Prop :=
  frame = INIT_SEQ \/ frame = POWER_ON_SEQ \/ frame = POWER_OFF_SEQ.

(** Every byte is below 128. *)
Definition ascii_only (data : bytes) : Prop :=
  Forall (fun b => int_of_byte b < 128) data.

Arguments struct_unpack : simpl never.
Arguments py_ne : simpl never.

(** ** Facts about [struct] and bytes *)

Lemma int_of_byte_range (b : byte) : 0 <= int_of_byte b <= 255.
Proof.
  unfold int_of_byte. pose proof (Byte.to_N_bounded b). lia.
Qed.

Lemma unpack_Bxx_shape (data : bytes) :
  struct_unpack "Bxx" data =
  match data with
  | [b0; _; _] => Ok [int_of_byte b0]
  | _ => Raise StructError
  end.
Proof.
  destruct data as [|b0 [|b1 [|b2 [|b3 r]]]]; reflexivity.
Qed.

Lemma unpack_BBxx_shape (data : bytes) :
  struct_unpack "BBxx" data =
  match data with
  | [b0; b1; _; _] => Ok [int_of_byte b0; int_of_byte b1]
  | _ => Raise StructError
  end.
Proof.
  destruct data as [|b0 [|b1 [|b2 [|b3 [|b4 r]]]]]; reflexivity.
Qed.

Lemma unpack_xxB_header (ty : byte) :
  struct_unpack "xxB" (header ty) = Ok [int_of_byte ty].
Proof. reflexivity. Qed.

Lemma unpack_Bxx_wrong_length (data : bytes) :
  len data <> 3 -> struct_unpack "Bxx" data = Raise StructError.
Proof.
  rewrite unpack_Bxx_shape.
  destruct data as [|b0 [|b1 [|b2 [|b3 r]]]]; try reflexivity.
  unfold len; simpl; lia.
Qed.

Lemma unpack_BBxx_wrong_length (data : bytes) :
  len data <> 4 -> struct_unpack "BBxx" data = Raise StructError.
Proof.
  rewrite unpack_BBxx_shape.
  destruct data as [|b0 [|b1 [|b2 [|b3 [|b4 r]]]]]; try reflexivity.
  unfold len; simpl; lia.
Qed.

Lemma byte_eqb_eq (a b : byte) : byte_eqb a b = true <-> a = b.
Proof.
  unfold byte_eqb. split.
  - intros H. apply Byte.byte_dec_bl in H. exact H.
  - intros ->. apply Byte.byte_dec_lb. reflexivity.
Qed.

(** The header test of [handleNotification] accepts exactly the chunks
    [EF DD ty]. *)
Lemma header_test (data : bytes) :
  startswith data [xef; xdd] && (len data =? 3) = true <->
  exists ty, data = header ty.
Proof.
  unfold header. split.
  - intros H. apply andb_prop in H as [Hs Hl].
    apply Z.eqb_eq in Hl. unfold len in Hl.
    destruct data as [|b0 [|b1 [|b2 [|b3 r]]]];
      cbn [List.length] in Hl; try lia.
    cbn [startswith] in Hs.
    apply andb_prop in Hs as [H0 H1]. apply andb_prop in H1 as [H1 _].
    apply byte_eqb_eq in H0, H1. subst. eauto.
  - intros [ty ->]. reflexivity.
Qed.

Ltac run_delegate :=
  unfold MyDelegate.handleNotification, MyDelegate.power_setter,
    MyDelegate.target_temp_setter, MyDelegate.current_temp_setter,
    MyDelegate.target_temp_scale_setter, MyDelegate.current_temp_scale_setter,
    MyDelegate.publish, MyDelegate.print, MyDelegate._on_change,
    bind, gets, ret, lift, modify, item0, pair_of;
  cbn.

(** The closing [if self.changed] block only prints. *)
Lemma report_if_changed (d : MyDelegate.t) :
  exists d',
    (c <- gets MyDelegate.changed ;;
     if c then
       d0 <- gets (fun d => d) ;;
       MyDelegate.print
         (Status (MyDelegate._power d0) (MyDelegate._target_temp d0)
                 (MyDelegate._target_temp_scale d0)
                 (MyDelegate._current_temp d0)
                 (MyDelegate._current_temp_scale d0)) ;;
       modify (MyDelegate.with_changed false)
     else ret tt) d = (Ok tt, d') /\
    unchanged d d' /\
    MyDelegate.last_message_type d' = MyDelegate.last_message_type d /\
    MyDelegate.changed d' = false.
Proof.
  run_delegate. destruct (MyDelegate.changed d) eqn:Hc; cbn;
    eexists; (split; [reflexivity|]); cbn; unfold unchanged; cbn; auto 10.
Qed.

(** C9. While a message type other than POWER (0), TARGET_TEMP (2) and
    CURRENT_TEMP (3) is pending, that is HOLD, COUNTDOWN, the opcodes 5, 6
    and 7, KETTLE_LIFTED and every other type byte, the next chunk is
    dropped whatever its length: the call returns normally, nothing is
    published, no field of the mirror changes, and the decoder waits for a
    header again. *)
Theorem other_types_discard_payload :
  forall (d : MyDelegate.t) (ty : Z) (cHandle : Z) (data : bytes),
    awaiting_payload ty d ->
    ty <> MessageTypes.POWER ->
    ty <> MessageTypes.TARGET_TEMP ->
    ty <> MessageTypes.CURRENT_TEMP ->
    exists d',
      MyDelegate.handleNotification cHandle data d = (Ok tt, d') /\
      unchanged d d' /\
      awaiting_header d'.
Proof.
  intros d ty cHandle data Hp H0 H2 H3.
  unfold awaiting_payload in Hp.
  destruct (report_if_changed (MyDelegate.with_last_message_type None d))
    as (d' & Hrun & Hsame & Hlmt & _).
  exists d'. split; [|split].
  - unfold MyDelegate.handleNotification.
    unfold bind at 1. unfold gets at 1. rewrite Hp.
    apply Z.eqb_neq in H0, H2, H3. rewrite H0, H2, H3.
    exact Hrun.
  - exact Hsame.
  - unfold awaiting_header. rewrite Hlmt. reflexivity.
Qed.

Ltac split_cases :=
  repeat match goal with
         | |- context [struct_unpack "Bxx" ?d] => rewrite (unpack_Bxx_shape d)
         | |- context [struct_unpack "BBxx" ?d] => rewrite (unpack_BBxx_shape d)
         | |- context [match ?x with _ => _ end] =>
             lazymatch x with
             | context [match _ with _ => _ end] => fail
             | _ => destruct x eqn:?; cbn
             end
         end.

(** Whatever a notification does, it leaves at most one pending type,
    which is a header's type byte. *)
Lemma handleNotification_pending_ok (d : MyDelegate.t) (cHandle : Z) (data : bytes) :
  pending_ok d ->
  pending_ok (snd (MyDelegate.handleNotification cHandle data d)).
Proof.
  unfold pending_ok, awaiting_header, awaiting_payload. intros H.
  destruct (MyDelegate.last_message_type d) as [ty|] eqn:Hp.
  - run_delegate. rewrite Hp. split_cases; cbn; auto.
    all: rewrite Hp; exact H.
  - run_delegate. rewrite Hp.
    destruct (startswith data [xef; xdd] && (len data =? 3)) eqn:Hh.
    + apply header_test in Hh as [ty ->]. rewrite unpack_xxB_header. cbn.
      destruct (MyDelegate.changed d); cbn; eauto.
    + cbn. destruct (MyDelegate.changed d); cbn; auto.
Qed.

Lemma feed_pending_ok (chunks : list bytes) :
  forall d : MyDelegate.t,
    pending_ok d -> pending_ok (snd (MyDelegate.feed chunks d)).
Proof.
  induction chunks as [|data rest IH]; intros d Hd.
  - exact Hd.
  - cbn [MyDelegate.feed]. unfold bind.
    pose proof (handleNotification_pending_ok d 0 data Hd) as Hstep.
    destruct (MyDelegate.handleNotification 0 data d) as [[[]|e] d1].
    + apply IH. exact Hstep.
    + exact Hstep.
Qed.

Lemma handleNotification_awaiting_header
      (d : MyDelegate.t) (cHandle : Z) (data : bytes) :
  awaiting_header d ->
  exists d',
    MyDelegate.handleNotification cHandle data d = (Ok tt, d') /\
    unchanged d d' /\
    MyDelegate.changed d' = false /\
    (forall ty, data = header ty -> awaiting_payload (int_of_byte ty) d') /\
    ((forall ty, data <> header ty) -> awaiting_header d').
Proof.
  unfold awaiting_header, awaiting_payload. intros Hp.
  destruct (startswith data [xef; xdd] && (len data =? 3)) eqn:Hh.
  - apply header_test in Hh as [ty0 ->].
    destruct (report_if_changed
                (MyDelegate.with_last_message_type (Some (int_of_byte ty0)) d))
      as (d' & Hrun & Hsame & Hlmt & Hch).
    exists d'. repeat split; try apply Hsame; try exact Hch.
    + unfold MyDelegate.handleNotification.
      unfold bind at 1. unfold gets at 1. rewrite Hp. exact Hrun.
    + intros ty Heq. injection Heq as <-. rewrite Hlmt. reflexivity.
    + intros Hno. exfalso. apply (Hno ty0). reflexivity.
  - destruct (report_if_changed d) as (d' & Hrun & Hsame & Hlmt & Hch).
    exists d'. repeat split; try apply Hsame; try exact Hch.
    + unfold MyDelegate.handleNotification.
      unfold bind at 1. unfold gets at 1. rewrite Hp, Hh. exact Hrun.
    + intros ty ->.
      assert (Ht : startswith (header ty) [xef; xdd] && (len (header ty) =? 3)
                   = true) by (apply header_test; eauto).
      rewrite Ht in Hh. discriminate.
    + intros _. rewrite Hlmt. exact Hp.
Qed.

(** C7. From a state that waits for a header, every sequence of chunks
    leaves at most one message type pending, the type byte of a header;
    and one chunk in that state is answered as follows: the call returns
    normally, publishes nothing and changes no field; the chunk [EF DD ty]
    (length exactly 3) makes [ty] the pending type; every other chunk
    leaves the decoder waiting for a header. *)
Theorem framing_invariant_and_header_state :
  forall (d : MyDelegate.t) (chunks : list bytes) (cHandle : Z) (data : bytes),
    awaiting_header d ->
    pending_ok (snd (MyDelegate.feed chunks d)) /\
    exists d',
      MyDelegate.handleNotification cHandle data d = (Ok tt, d') /\
      unchanged d d' /\
      (forall ty, data = header ty -> awaiting_payload (int_of_byte ty) d') /\
      ((forall ty, data <> header ty) -> awaiting_header d').
Proof.
  intros d chunks cHandle data Hd. split.
  - apply feed_pending_ok. left. exact Hd.
  - destruct (handleNotification_awaiting_header d cHandle data Hd)
      as (d' & Hrun & Hsame & _ & Hhdr & Hnoise).
    exists d'. auto.
Qed.

Lemma len_3 (data : bytes) :
  len data = 3 -> exists b0 b1 b2, data = [b0; b1; b2].
Proof.
  unfold len. intros H.
  destruct data as [|b0 [|b1 [|b2 [|b3 r]]]]; cbn [List.length] in H; try lia.
  eauto.
Qed.

Lemma len_4 (data : bytes) :
  len data = 4 -> exists b0 b1 b2 b3, data = [b0; b1; b2; b3].
Proof.
  unfold len. intros H.
  destruct data as [|b0 [|b1 [|b2 [|b3 [|b4 r]]]]];
    cbn [List.length] in H; try lia.
  eauto.
Qed.

Lemma py_ne_refl (v : PyVal) : py_ne v v = false.
Proof.
  unfold py_ne. destruct v; cbn.
  - reflexivity.
  - rewrite Z.eqb_refl. reflexivity.
  - rewrite String.eqb_refl. reflexivity.
Qed.

(** A payload chunk of the length its format demands is consumed. *)
Lemma payload_fits_consumed
      (d : MyDelegate.t) (ty cHandle : Z) (data : bytes) :
  awaiting_payload ty d ->
  payload_fits ty data = true ->
  exists d',
    MyDelegate.handleNotification cHandle data d = (Ok tt, d') /\
    awaiting_header d'.
Proof.
  unfold awaiting_payload, awaiting_header, payload_fits. intros Hp Hfit.
  run_delegate. rewrite Hp.
  destruct (ty =? MessageTypes.POWER) eqn:E0.
  - apply Z.eqb_eq, len_3 in Hfit as (b0 & b1 & b2 & ->).
    rewrite unpack_Bxx_shape. cbn.
    split_cases; eexists; (split; [reflexivity | reflexivity]).
  - destruct (ty =? MessageTypes.TARGET_TEMP) eqn:E2;
      [|destruct (ty =? MessageTypes.CURRENT_TEMP) eqn:E3]; cbn in Hfit.
    + apply Z.eqb_eq, len_4 in Hfit as (b0 & b1 & b2 & b3 & ->).
      rewrite unpack_BBxx_shape. cbn.
      split_cases; eexists; (split; [reflexivity | reflexivity]).
    + apply Z.eqb_eq, len_4 in Hfit as (b0 & b1 & b2 & b3 & ->).
      rewrite unpack_BBxx_shape. cbn.
      split_cases; eexists; (split; [reflexivity | reflexivity]).
    + cbn. split_cases; eexists; (split; [reflexivity | reflexivity]).
Qed.

(** A payload chunk of another length makes [struct.unpack] raise before
    anything is assigned: the delegate is left as it was, pending type
    included. *)
Lemma payload_misfit_raises
      (d : MyDelegate.t) (ty cHandle : Z) (data : bytes) :
  awaiting_payload ty d ->
  payload_fits ty data = false ->
  MyDelegate.handleNotification cHandle data d = (Raise StructError, d).
Proof.
  unfold awaiting_payload, payload_fits. intros Hp Hfit.
  run_delegate. rewrite Hp.
  destruct (ty =? MessageTypes.POWER) eqn:E0.
  - apply Z.eqb_neq in Hfit.
    rewrite (unpack_Bxx_wrong_length data Hfit). reflexivity.
  - destruct (ty =? MessageTypes.TARGET_TEMP) eqn:E2;
      [|destruct (ty =? MessageTypes.CURRENT_TEMP) eqn:E3]; cbn in Hfit;
      try discriminate;
      apply Z.eqb_neq in Hfit;
      rewrite (unpack_BBxx_wrong_length data Hfit); reflexivity.
Qed.

(** C2 (as the code has it). While a message type is pending, a chunk
    whose length fits the payload format of that type (3 bytes for POWER,
    4 bytes for TARGET_TEMP and CURRENT_TEMP, any length for the other
    types) is consumed and the decoder waits for a header again; a chunk
    of another length makes the call raise [struct.error], and the
    delegate, its pending type included, stays as it was. *)
Theorem payload_chunk_by_length :
  forall (d : MyDelegate.t) (ty cHandle : Z) (data : bytes),
    awaiting_payload ty d ->
    (payload_fits ty data = true ->
     exists d',
       MyDelegate.handleNotification cHandle data d = (Ok tt, d') /\
       awaiting_header d') /\
    (payload_fits ty data = false ->
     MyDelegate.handleNotification cHandle data d = (Raise StructError, d)).
Proof.
  intros d ty cHandle data Hp. split; intros Hfit.
  - apply payload_fits_consumed with (ty := ty); assumption.
  - apply payload_misfit_raises with (ty := ty); assumption.
Qed.

(** C2, refuted as stated: with TARGET_TEMP pending, the 3-byte chunk
    [01 00 00] is not discarded; the call raises [struct.error] and
    TARGET_TEMP stays pending. *)
Lemma wrong_length_payload_raises :
  let d := pending MessageTypes.TARGET_TEMP (fresh []) in
  let data := [x01; x00; x00] in
  len data <> 4 /\
  MyDelegate.handleNotification 0 data d = (Raise StructError, d) /\
  ~ (exists d',
        MyDelegate.handleNotification 0 data d = (Ok tt, d') /\
        awaiting_header d').
Proof.
  cbv zeta. split; [|split].
  - vm_compute. discriminate.
  - reflexivity.
  - intros (d' & Hrun & _). vm_compute in Hrun. discriminate.
Qed.

(** C3 (as the code has it). On the freshly created delegate, the header
    chunk [EF DD 00] followed by a 3-byte payload chunk [01 b1 b2], so
    [01 00 00] in particular, sets [power] from [None] to ["on"] with
    exactly one publication, ["on"] on the switch state topic, and touches
    nothing else.  A POWER payload is accepted exactly when it has 3
    bytes, a TARGET_TEMP or CURRENT_TEMP payload exactly when it has 4
    bytes.  The bytes after the decoded ones are padding: for POWER the
    two bytes after the first change neither the fields nor what is
    published, and for TARGET_TEMP and CURRENT_TEMP the two bytes after
    the second change nothing at all. *)
Theorem power_on_scenario_three_byte_payload :
  forall (log : list Publication) (d : MyDelegate.t)
         (ty cHandle : Z) (data : bytes)
         (b0 b1 b2 b3 b1' b2' b3' : byte),
    (exists d',
        MyDelegate.feed [header x00; [x01; b1; b2]] (fresh log)
        = (Ok tt, d') /\
        MyDelegate._power (fresh log) = PyNone /\
        MyDelegate._power d' = PyStr "on" /\
        MqttClient.published (MyDelegate.client d')
        = (log ++ [mkPublication "homeassistant/switch/kettle/state"
                                 (PyStr "on") 0 false])%list /\
        MyDelegate._target_temp d' = PyNone /\
        MyDelegate._target_temp_scale d' = PyNone /\
        MyDelegate._current_temp d' = PyNone /\
        MyDelegate._current_temp_scale d' = PyNone /\
        awaiting_header d') /\
    ((exists d',
         MyDelegate.handleNotification cHandle data (pending ty d)
         = (Ok tt, d'))
     <-> payload_fits ty data = true) /\
    payload_fits MessageTypes.POWER data = (len data =? 3) /\
    payload_fits MessageTypes.TARGET_TEMP data = (len data =? 4) /\
    payload_fits MessageTypes.CURRENT_TEMP data = (len data =? 4) /\
    (exists d1 d2,
        MyDelegate.handleNotification cHandle [b0; b1; b2]
          (pending MessageTypes.POWER d) = (Ok tt, d1) /\
        MyDelegate.handleNotification cHandle [b0; b1'; b2']
          (pending MessageTypes.POWER d) = (Ok tt, d2) /\
        unchanged d1 d2 /\
        awaiting_header d1 /\ awaiting_header d2) /\
    MyDelegate.handleNotification cHandle [b0; b1; b2; b3]
      (pending MessageTypes.TARGET_TEMP d)
    = MyDelegate.handleNotification cHandle [b0; b1; b2'; b3']
        (pending MessageTypes.TARGET_TEMP d) /\
    MyDelegate.handleNotification cHandle [b0; b1; b2; b3]
      (pending MessageTypes.CURRENT_TEMP d)
    = MyDelegate.handleNotification cHandle [b0; b1; b2'; b3']
        (pending MessageTypes.CURRENT_TEMP d).
Proof.
  intros log d ty cHandle data b0 b1 b2 b3 b1' b2' b3'.
  assert (Hp : awaiting_payload ty (pending ty d)) by reflexivity.
  split; [|split; [split|]].
  - eexists. split; [reflexivity|]. cbn. repeat split; reflexivity.
  - intros [d' Hrun]. destruct (payload_fits ty data) eqn:Hfit; [reflexivity|].
    rewrite (payload_misfit_raises _ ty cHandle data Hp Hfit) in Hrun.
    discriminate.
  - intros Hfit.
    destruct (payload_fits_consumed _ ty cHandle data Hp Hfit)
      as (d' & Hrun & _).
    eauto.
  - split; [reflexivity|]. split; [reflexivity|]. split; [reflexivity|].
    split; [|split].
    + unfold unchanged, awaiting_header, pending.
      run_delegate. rewrite !unpack_Bxx_shape. cbn.
      split_cases; eexists; eexists;
        (split; [reflexivity|]); (split; [reflexivity|]); cbn; auto 10.
    + unfold pending. run_delegate. rewrite !unpack_BBxx_shape. reflexivity.
    + unfold pending. run_delegate. rewrite !unpack_BBxx_shape. reflexivity.
Qed.

(** C3, refuted as stated: after the header [EF DD 00] the 4-byte payload
    [01 00 00 00] does not fit ['Bxx']; the call raises [struct.error],
    [power] stays [None], nothing is published and POWER stays pending. *)
Lemma four_byte_power_payload_raises :
  let r := MyDelegate.feed [header x00; [x01; x00; x00; x00]] (fresh []) in
  fst r = Raise StructError /\
  MyDelegate._power (snd r) = PyNone /\
  MqttClient.published (MyDelegate.client (snd r)) = [] /\
  awaiting_payload MessageTypes.POWER (snd r).
Proof.
  cbv zeta. repeat split; reflexivity.
Qed.

(** C5. A CURRENT_TEMP payload whose first byte is below 40 leaves
    [current_temp] at ["--"] (unavailable); otherwise [current_temp] is
    that byte.  Raw 39 gives ["--"], raw 40 gives 40. *)
Theorem current_temp_unavailable_below_40 :
  forall (d : MyDelegate.t) (cHandle : Z) (b0 b1 b2 b3 : byte),
    awaiting_payload MessageTypes.CURRENT_TEMP d ->
    exists d',
      MyDelegate.handleNotification cHandle [b0; b1; b2; b3] d = (Ok tt, d') /\
      MyDelegate._current_temp d'
      = (if int_of_byte b0 <? 40 then PyStr "--" else PyInt (int_of_byte b0)) /\
      (int_of_byte b0 = 39 -> MyDelegate._current_temp d' = PyStr "--") /\
      (int_of_byte b0 = 40 -> MyDelegate._current_temp d' = PyInt 40).
Proof.
  intros d cHandle b0 b1 b2 b3 Hp. unfold awaiting_payload in Hp.
  assert (Hmain : exists d',
    MyDelegate.handleNotification cHandle [b0; b1; b2; b3] d = (Ok tt, d') /\
    MyDelegate._current_temp d'
    = (if int_of_byte b0 <? 40 then PyStr "--" else PyInt (int_of_byte b0))).
  { run_delegate. rewrite Hp. cbn. rewrite unpack_BBxx_shape. cbn.
    split_cases; eexists; (split; [reflexivity | reflexivity]). }
  destruct Hmain as (d' & Hrun & Hct).
  exists d'. repeat split; try assumption.
  - intros H39. rewrite Hct, H39. reflexivity.
  - intros H40. rewrite Hct, H40. reflexivity.
Qed.

(** Handling the same payload chunk a second time for the same message
    type publishes nothing and assigns no new value. *)
Lemma payload_twice (d : MyDelegate.t) (ty cHandle : Z) (data : bytes) :
  awaiting_payload ty d ->
  match MyDelegate.handleNotification cHandle data d with
  | (Ok _, d1) =>
      awaiting_header d1 /\
      MyDelegate.changed d1 = false /\
      exists d2,
        MyDelegate.handleNotification cHandle data (pending ty d1)
        = (Ok tt, d2) /\
        unchanged d1 d2 /\ awaiting_header d2 /\
        MyDelegate.changed d2 = false
  | (Raise _, _) => True
  end.
Proof.
  unfold awaiting_payload, awaiting_header, pending, unchanged. intros Hp.
  run_delegate. rewrite Hp.
  repeat first
    [ rewrite py_ne_refl
    | progress cbn
    | match goal with
      | |- context [struct_unpack "Bxx" ?x] => rewrite (unpack_Bxx_shape x)
      | |- context [struct_unpack "BBxx" ?x] => rewrite (unpack_BBxx_shape x)
      | |- context [match ?x with _ => _ end] =>
          lazymatch x with
          | context [match _ with _ => _ end] => fail
          | _ => destruct x eqn:?
          end
      end ];
    try exact I; try congruence;
    (split; [reflexivity|]; split; [reflexivity|]);
    eexists; (split; [reflexivity|]); cbn; auto 10.
Qed.

(** C6. A header and its payload, fed twice in a row: whenever the first
    pair is handled, the second pair is handled too, publishes nothing and
    leaves every field as the first pair left it. *)
Theorem repeated_frame_publishes_once :
  forall (d d1 : MyDelegate.t) (ty : byte) (data : bytes),
    awaiting_header d ->
    MyDelegate.feed [header ty; data] d = (Ok tt, d1) ->
    exists d2,
      MyDelegate.feed [header ty; data] d1 = (Ok tt, d2) /\
      unchanged d1 d2 /\
      MqttClient.published (MyDelegate.client d2)
      = MqttClient.published (MyDelegate.client d1) /\
      awaiting_header d2.
Proof.
  intros d d1 ty data Hd Hfeed.
  cbn [MyDelegate.feed] in Hfeed |- *. unfold bind, ret in Hfeed |- *.
  destruct (handleNotification_awaiting_header d 0 (header ty) Hd)
    as (dh & Hrun & _ & _ & Hhdr & _).
  rewrite Hrun in Hfeed. specialize (Hhdr ty eq_refl).
  pose proof (payload_twice dh (int_of_byte ty) 0 data Hhdr) as Htwice.
  destruct (MyDelegate.handleNotification 0 data dh) as [[[]|e] d1'];
    [|discriminate].
  injection Hfeed as <-.
  destruct Htwice as (Hd1 & Hch1 & d2 & Hrun2 & Hsame & Hd2 & _).
  destruct (handleNotification_awaiting_header d1' 0 (header ty) Hd1)
    as (dh1 & Hrun1 & _ & _ & _ & _).
  assert (Hhead : MyDelegate.handleNotification 0 (header ty) d1'
                  = (Ok tt, pending (int_of_byte ty) d1')).
  { unfold awaiting_header in Hd1.
    run_delegate. rewrite Hd1. rewrite unpack_xxB_header. cbn.
    rewrite Hch1. reflexivity. }
  rewrite Hhead, Hrun2.
  exists d2. repeat split; try apply Hsame; try exact Hd2.
  destruct Hsame as [Hc _]. rewrite Hc. reflexivity.
Qed.

(** ** The command side *)

Lemma byte_of_int_some (v : Z) :
  0 <= v <= 255 -> exists b, byte_of_int v = Some b /\ int_of_byte b = v.
Proof.
  intros Hv. unfold byte_of_int.
  replace ((0 <=? v) && (v <=? 255)) with true
    by (symmetry; apply andb_true_intro; split; apply Z.leb_le; lia).
  destruct (Byte.of_N (Z.to_N v)) as [b|] eqn:Hb.
  - exists b. split; [reflexivity|].
    apply Byte.to_of_N in Hb. unfold int_of_byte. rewrite Hb. lia.
  - apply Byte.of_N_None_iff in Hb. lia.
Qed.

Lemma byte_of_int_none (v : Z) :
  v < 0 \/ 255 < v -> byte_of_int v = None.
Proof.
  intros Hv. unfold byte_of_int.
  replace ((0 <=? v) && (v <=? 255)) with false; [reflexivity|].
  symmetry. apply andb_false_iff.
  destruct Hv; [left; apply Z.leb_gt | right; apply Z.leb_gt]; lia.
Qed.

Lemma connect_ok (k : StaggKettle.t) :
  connect k = (Ok tt, link_up k) /\ connected (link_up k) = true.
Proof.
  unfold link_up, connect, bind, gets, ret, modify, print,
    characteristics_write.
  destruct (connected k) eqn:Hc; cbn; auto.
Qed.

(** The opening [if not self.connected: self.connect()] of a command. *)
Lemma ensure_connected {A} (k : StaggKettle.t) (rest : M StaggKettle.t A) :
  (c <- gets connected ;; (if negb c then connect else ret tt) ;; rest) k
  = rest (link_up k).
Proof.
  unfold bind at 1. unfold gets at 1.
  destruct (connected k) eqn:Hc; cbn [negb]; unfold bind at 1.
  - unfold ret at 1. unfold link_up, connect, bind, gets, ret.
    rewrite Hc. reflexivity.
  - destruct (connect_ok k) as [-> _]. reflexivity.
Qed.

(** What [set_temperature] does with a value that fits a byte. *)
Lemma set_temperature_byte (k : StaggKettle.t) (v : Z) (b : byte) :
  0 <= v <= 255 ->
  byte_of_int v = Some b ->
  exists k',
    set_temperature v k = (Ok tt, k') /\
    written k'
    = (written (link_up k) ++ [TARGET_TEMP_HDR ++ [x00; b; b; x01]])%list.
Proof.
  intros Hv Hb.
  unfold set_temperature. rewrite ensure_connected.
  unfold bind, print, modify, lift, characteristics_write. cbn.
  rewrite Z.mod_small by lia. rewrite Hb. cbn.
  eexists. split; reflexivity.
Qed.

(** What it does with any other value. *)
Lemma set_temperature_non_byte (k : StaggKettle.t) (v : Z) :
  v < 0 \/ 255 < v ->
  exists k',
    set_temperature v k = (Raise StructError, k') /\
    written k' = written (link_up k).
Proof.
  intros Hv.
  unfold set_temperature. rewrite ensure_connected.
  unfold bind, print, modify, lift, characteristics_write. cbn.
  rewrite (byte_of_int_none v Hv).
  eexists. split; reflexivity.
Qed.

(** C4. For every temperature the kettle accepts, [set_temperature]
    writes one frame: the header [EF DD 0A] followed by the four bytes
    sequence number 0, the value, the checksum (0 + value) mod 256, and
    the flag 1.  For 100 the frame is [EF DD 0A 00 64 64 01]. *)
Theorem set_temperature_frame :
  forall (k : StaggKettle.t) (v : Z),
    in_device_range v ->
    exists (body : bytes) (k' : StaggKettle.t),
      set_temperature v k = (Ok tt, k') /\
      written k' = (written (link_up k) ++ [TARGET_TEMP_HDR ++ body])%list /\
      TARGET_TEMP_HDR = [xef; xdd; x0a] /\
      map int_of_byte body = [0; v; (0 + v) mod 256; 1] /\
      (v = 100 ->
       (TARGET_TEMP_HDR ++ body)%list = [xef; xdd; x0a; x00; x64; x64; x01]).
Proof.
  intros k v Hr.
  assert (Hv : 0 <= v <= 255) by (unfold in_device_range in Hr; lia).
  destruct (byte_of_int_some v Hv) as (b & Hb & Hint).
  destruct (set_temperature_byte k v b Hv Hb) as (k' & Hrun & Hw).
  exists [x00; b; b; x01], k'. repeat split; try assumption.
  - cbn [map]. rewrite Hint. change (int_of_byte x00) with 0.
    change (int_of_byte x01) with 1.
    rewrite Z.add_0_l, Z.mod_small by lia. reflexivity.
  - intros ->. cbn in Hb. injection Hb as <-. reflexivity.
Qed.

(** C1 (as the code has it). [set_temperature] checks no temperature
    bounds.  The only values it refuses are those that do not fit the
    unsigned byte of the frame, below 0 or above 255: for these
    [struct.pack] raises [struct.error] and no set-temperature frame is
    written.  Every value from 0 to 255 is encoded and written, as the
    header followed by 0, the value, the value again and 1; 101 is
    written as [EF DD 0A 00 65 65 01]. *)
Theorem set_temperature_refuses_only_non_bytes :
  forall (k : StaggKettle.t) (v : Z),
    (v < 0 \/ 255 < v ->
     exists k',
       set_temperature v k = (Raise StructError, k') /\
       written k' = written (link_up k)) /\
    (0 <= v <= 255 ->
     exists (body : bytes) (k' : StaggKettle.t),
       set_temperature v k = (Ok tt, k') /\
       written k' = (written (link_up k) ++ [TARGET_TEMP_HDR ++ body])%list /\
       map int_of_byte body = [0; v; v; 1]) /\
    (exists k',
        set_temperature 101 k = (Ok tt, k') /\
        written k'
        = (written (link_up k) ++ [[xef; xdd; x0a; x00; x65; x65; x01]])%list).
Proof.
  intros k v. split; [|split].
  - intros Hv. apply set_temperature_non_byte. exact Hv.
  - intros Hv.
    destruct (byte_of_int_some v Hv) as (b & Hb & Hint).
    destruct (set_temperature_byte k v b Hv Hb) as (k' & Hrun & Hw).
    exists [x00; b; b; x01], k'. repeat split; try assumption.
    cbn [map]. rewrite Hint. reflexivity.
  - apply (set_temperature_byte k 101 x65); [lia | reflexivity].
Qed.

(** C1, refuted as stated: 101 is outside 40 - 100 and outside 104 - 212,
    yet [set_temperature 101] returns normally and writes the frame
    [EF DD 0A 00 65 65 01]. *)
Lemma out_of_range_temperature_is_sent :
  let k := StaggKettle.mk true "off" (MqttClient.mk [] [] None) [] [] in
  ~ in_device_range 101 /\
  fst (set_temperature 101 k) = Ok tt /\
  written (snd (set_temperature 101 k))
  = [[xef; xdd; x0a; x00; x65; x65; x01]].
Proof.
  cbv zeta. split; [|split].
  - unfold in_device_range. lia.
  - reflexivity.
  - reflexivity.
Qed.

(** C8 (as the code has it). The three command frames are constants:
    power-on is [EF DD 0A 00 00 01 01 00], power-off is
    [EF DD 0A 00 00 00 00 00], and Init is the 20 bytes
    [EF DD 0B 30 31 32 33 34 35 36 37 38 39 30 31 32 33 34 9A 6D];
    [power_on], [power_off] and [connect] write exactly these, whatever
    the state of the bridge. *)
Theorem command_frames_are_constants :
  forall k : StaggKettle.t,
    fromhex "EF DD 0A 0000010100" = Ok POWER_ON_SEQ /\
    fromhex "EF DD 0A 0000000000" = Ok POWER_OFF_SEQ /\
    fromhex "EF DD 0B 3031323334353637383930313233349A6D" = Ok INIT_SEQ /\
    len INIT_SEQ = 20 /\
    written (snd (power_on k)) = (written (link_up k) ++ [POWER_ON_SEQ])%list /\
    written (snd (power_off k)) = (written (link_up k) ++ [POWER_OFF_SEQ])%list /\
    written (link_up (with_connected false k)) = (written k ++ [INIT_SEQ])%list.
Proof.
  intros k. repeat split; try reflexivity.
  - unfold power_on. rewrite ensure_connected. reflexivity.
  - unfold power_off. rewrite ensure_connected. reflexivity.
Qed.

(** C8, refuted as stated: the Init value of the wire table,
    [EF DD 0B 30313233343536373839303132333449A6D], has an odd number of
    hexadecimal digits, so it denotes no byte sequence, and [INIT_SEQ] is
    not it. *)
Lemma init_wire_value_is_not_init_seq :
  fromhex "EF DD 0B 30313233343536373839303132333449A6D" = Raise ValueError /\
  fromhex "EF DD 0B 30313233343536373839303132333449A6D" <> Ok INIT_SEQ.
Proof.
  split.
  - reflexivity.
  - discriminate.
Qed.

(** C10 (as the code has it). Whatever the topic, a message whose payload
    is the UTF-8 string [s] is answered by publishing [s] itself on
    [homeassistant/switch/kettle/state], as the only publication of the
    call; when [s] is neither ["on"] nor ["off"] nothing is written to the
    kettle and the bridge is otherwise left as it was.  A message whose
    payload is not well-formed UTF-8 is not echoed: the decode raises
    [UnicodeDecodeError] and the bridge, its publications included, is
    left as it was. *)
Theorem on_message_echoes_payload :
  forall (k : StaggKettle.t) (msg : MQTTMessage),
    (utf8_valid (msg_payload msg) = true ->
     let s := string_of_list_byte (msg_payload msg) in
     exists k',
       on_message msg k = (Ok tt, k') /\
       MqttClient.published (StaggKettle.client k')
       = (MqttClient.published (StaggKettle.client k)
          ++ [mkPublication switch_state_topic (PyStr s) 0 false])%list /\
       (s <> "on" -> s <> "off" ->
        written k' = written k /\
        connected k' = connected k /\
        current_state k' = current_state k /\
        StaggKettle.stdout k' = StaggKettle.stdout k)) /\
    (utf8_valid (msg_payload msg) = false ->
     on_message msg k = (Raise UnicodeDecodeError, k)).
Proof.
  intros k msg. split.
  - intros Hutf s.
    unfold on_message, decode_utf8. rewrite Hutf. fold s.
    unfold bind at 1. unfold lift at 1.
    destruct (String.eqb_spec s "on") as [Hon|Hon];
      [|destruct (String.eqb_spec s "off") as [Hoff|Hoff]].
    + unfold bind at 1. unfold power_on. rewrite ensure_connected.
      unfold link_up, connect, bind, gets, ret, modify, print,
        characteristics_write, client_publish.
      destruct (connected k); cbn; eexists;
        (split; [reflexivity|]); (split; [reflexivity|]); contradiction.
    + unfold bind at 1. unfold power_off. rewrite ensure_connected.
      unfold link_up, connect, bind, gets, ret, modify, print,
        characteristics_write, client_publish.
      destruct (connected k); cbn; eexists;
        (split; [reflexivity|]); (split; [reflexivity|]); contradiction.
    + unfold bind, ret, client_publish, modify. cbn.
      eexists. split; [reflexivity|]. split; [reflexivity|]. auto.
  - intros Hbad. unfold on_message, decode_utf8. rewrite Hbad. reflexivity.
Qed.

(** C10, refuted as stated: the payload [FF] is neither ["on"] nor
    ["off"], yet it is not echoed; the decode raises
    [UnicodeDecodeError] and nothing is published. *)
Lemma ill_formed_payload_is_not_echoed :
  let k := StaggKettle.mk true "off" (MqttClient.mk [] [] None) [] [] in
  let msg := mkMessage "homeassistant/switch/kettle/set" [xff] in
  on_message msg k = (Raise UnicodeDecodeError, k) /\
  MqttClient.published (StaggKettle.client (snd (on_message msg k))) = [] /\
  ~ (exists k' p,
        on_message msg k = (Ok tt, k') /\
        MqttClient.published (StaggKettle.client k')
        = (MqttClient.published (StaggKettle.client k) ++ [p])%list).
Proof.
  cbv zeta. split; [|split].
  - reflexivity.
  - reflexivity.
  - intros (k' & p & Hrun & _). vm_compute in Hrun. discriminate.
Qed.

(** ** The statements at concrete inputs *)

Lemma other_types_discard_payload_witness :
  let d := pending MessageTypes.HOLD (fresh []) in
  awaiting_payload MessageTypes.HOLD d /\
  exists d',
    MyDelegate.handleNotification 0 [x01; x00; x00; x00] d = (Ok tt, d') /\
    unchanged d d' /\
    awaiting_header d'.
Proof.
  cbv zeta. split; [reflexivity|].
  apply (other_types_discard_payload
           (pending MessageTypes.HOLD (fresh [])) MessageTypes.HOLD 0
           [x01; x00; x00; x00]);
    [reflexivity | vm_compute; discriminate ..].
Defined.

Lemma framing_invariant_and_header_state_witness :
  let d := fresh [] in
  let data := header x03 in
  awaiting_header d /\
  pending_ok (snd (MyDelegate.feed [header x00; [x01; x00; x00]; [xff]] d)) /\
  exists d',
    MyDelegate.handleNotification 0 data d = (Ok tt, d') /\
    unchanged d d' /\
    (forall ty, data = header ty -> awaiting_payload (int_of_byte ty) d') /\
    ((forall ty, data <> header ty) -> awaiting_header d').
Proof.
  cbv zeta. split; [reflexivity|].
  apply (framing_invariant_and_header_state
           (fresh []) [header x00; [x01; x00; x00]; [xff]] 0 (header x03)).
  reflexivity.
Defined.

Lemma payload_chunk_by_length_witness :
  let d := pending MessageTypes.TARGET_TEMP (fresh []) in
  let data := [x5a; x00; x00; x00] in
  awaiting_payload MessageTypes.TARGET_TEMP d /\
  (payload_fits MessageTypes.TARGET_TEMP data = true ->
   exists d',
     MyDelegate.handleNotification 0 data d = (Ok tt, d') /\
     awaiting_header d') /\
  (payload_fits MessageTypes.TARGET_TEMP data = false ->
   MyDelegate.handleNotification 0 data d = (Raise StructError, d)).
Proof.
  cbv zeta. split; [reflexivity|].
  apply (payload_chunk_by_length
           (pending MessageTypes.TARGET_TEMP (fresh []))
           MessageTypes.TARGET_TEMP 0 [x5a; x00; x00; x00]).
  reflexivity.
Defined.

Lemma current_temp_unavailable_below_40_witness :
  let d := pending MessageTypes.CURRENT_TEMP (fresh []) in
  awaiting_payload MessageTypes.CURRENT_TEMP d /\
  exists d',
    MyDelegate.handleNotification 0 [x27; x00; x00; x00] d = (Ok tt, d') /\
    MyDelegate._current_temp d'
    = (if int_of_byte x27 <? 40 then PyStr "--" else PyInt (int_of_byte x27)) /\
    (int_of_byte x27 = 39 -> MyDelegate._current_temp d' = PyStr "--") /\
    (int_of_byte x27 = 40 -> MyDelegate._current_temp d' = PyInt 40).
Proof.
  cbv zeta. split; [reflexivity|].
  apply (current_temp_unavailable_below_40
           (pending MessageTypes.CURRENT_TEMP (fresh [])) 0 x27 x00 x00 x00).
  reflexivity.
Defined.

Lemma repeated_frame_publishes_once_witness :
  let d := fresh [] in
  let d1 := target_90F in
  awaiting_header d /\
  MyDelegate.feed [header x02; [x5a; x01; x00; x00]] d = (Ok tt, d1) /\
  List.length (MqttClient.published (MyDelegate.client d1)) = 2%nat /\
  exists d2,
    MyDelegate.feed [header x02; [x5a; x01; x00; x00]] d1 = (Ok tt, d2) /\
    unchanged d1 d2 /\
    MqttClient.published (MyDelegate.client d2)
    = MqttClient.published (MyDelegate.client d1) /\
    awaiting_header d2.
Proof.
  cbv zeta.
  assert (Hd : awaiting_header (fresh [])) by reflexivity.
  assert (Hfeed : MyDelegate.feed [header x02; [x5a; x01; x00; x00]] (fresh [])
                  = (Ok tt, target_90F)) by (vm_compute; reflexivity).
  split; [exact Hd|]. split; [exact Hfeed|].
  split; [vm_compute; reflexivity|].
  exact (repeated_frame_publishes_once
           (fresh []) target_90F x02 [x5a; x01; x00; x00] Hd Hfeed).
Defined.

Lemma set_temperature_frame_witness :
  let k := StaggKettle.mk true "off" (MqttClient.mk [] [] None) [] [] in
  in_device_range 100 /\
  exists (body : bytes) (k' : StaggKettle.t),
    set_temperature 100 k = (Ok tt, k') /\
    written k' = (written (link_up k) ++ [TARGET_TEMP_HDR ++ body])%list /\
    TARGET_TEMP_HDR = [xef; xdd; x0a] /\
    map int_of_byte body = [0; 100; (0 + 100) mod 256; 1] /\
    (100 = 100 ->
     (TARGET_TEMP_HDR ++ body)%list = [xef; xdd; x0a; x00; x64; x64; x01]).
Proof.
  cbv zeta.
  assert (Hr : in_device_range 100) by (unfold in_device_range; lia).
  split; [exact Hr|].
  apply (set_temperature_frame
           (StaggKettle.mk true "off" (MqttClient.mk [] [] None) [] []) 100 Hr).
Defined.

Lemma set_temperature_refuses_only_non_bytes_witness :
  let k := StaggKettle.mk false "off" (MqttClient.mk [] [] None) [] [] in
  (300 < 0 \/ 255 < 300) /\
  0 <= 30 <= 255 /\
  (exists k',
      set_temperature 300 k = (Raise StructError, k') /\
      written k' = written (link_up k)) /\
  (exists (body : bytes) (k' : StaggKettle.t),
      set_temperature 30 k = (Ok tt, k') /\
      written k' = (written (link_up k) ++ [TARGET_TEMP_HDR ++ body])%list /\
      map int_of_byte body = [0; 30; 30; 1]).
Proof.
  cbv zeta.
  assert (Hhi : 300 < 0 \/ 255 < 300) by lia.
  assert (Hlo : 0 <= 30 <= 255) by lia.
  split; [exact Hhi|]. split; [exact Hlo|]. split.
  - exact (proj1 (set_temperature_refuses_only_non_bytes
                    (StaggKettle.mk false "off" (MqttClient.mk [] [] None) [] [])
                    300) Hhi).
  - exact (proj1 (proj2 (set_temperature_refuses_only_non_bytes
                           (StaggKettle.mk false "off"
                                           (MqttClient.mk [] [] None) [] [])
                           30)) Hlo).
Defined.

Lemma on_message_echoes_payload_witness :
  let k := StaggKettle.mk true "off" (MqttClient.mk [] [] None) [] [] in
  let msg := mkMessage "homeassistant/switch/kettle/set"
                       [x6d; x61; x79; x62; x65] in
  let bad := mkMessage "homeassistant/switch/kettle/set" [x6f; xff] in
  utf8_valid (msg_payload msg) = true /\
  utf8_valid (msg_payload bad) = false /\
  (exists k',
      on_message msg k = (Ok tt, k') /\
      MqttClient.published (StaggKettle.client k')
      = [mkPublication switch_state_topic (PyStr "maybe") 0 false] /\
      ("maybe" <> "on" -> "maybe" <> "off" ->
       written k' = written k /\
       connected k' = connected k /\
       current_state k' = current_state k /\
       StaggKettle.stdout k' = StaggKettle.stdout k)) /\
  on_message bad k = (Raise UnicodeDecodeError, k).
Proof.
  cbv zeta.
  assert (Hok : utf8_valid
                  (msg_payload
                     (mkMessage "homeassistant/switch/kettle/set"
                                [x6d; x61; x79; x62; x65])) = true)
    by reflexivity.
  assert (Hbad : utf8_valid
                   (msg_payload
                      (mkMessage "homeassistant/switch/kettle/set" [x6f; xff]))
                 = false) by reflexivity.
  split; [exact Hok|]. split; [exact Hbad|]. split.
  - exact (proj1 (on_message_echoes_payload
                    (StaggKettle.mk true "off" (MqttClient.mk [] [] None) [] [])
                    (mkMessage "homeassistant/switch/kettle/set"
                               [x6d; x61; x79; x62; x65])) Hok).
  - exact (proj2 (on_message_echoes_payload
                    (StaggKettle.mk true "off" (MqttClient.mk [] [] None) [] [])
                    (mkMessage "homeassistant/switch/kettle/set" [x6f; xff]))
                 Hbad).
Defined.

(** ** Further properties of the delegate *)

(** X1. A TARGET_TEMP payload [b0 b1 _ _] stores [b0] as target temperature
    and the scale of [b1]; it publishes the temperature and then the
    scale, each only when it differs from the stored value, and it leaves
    power and current temperature alone. *)
Theorem target_temp_payload :
  forall (d : MyDelegate.t) (cHandle : Z) (b0 b1 b2 b3 : byte),
    awaiting_payload MessageTypes.TARGET_TEMP d ->
    exists d',
      MyDelegate.handleNotification cHandle [b0; b1; b2; b3] d = (Ok tt, d') /\
      MyDelegate._target_temp d' = PyInt (int_of_byte b0) /\
      MyDelegate._target_temp_scale d' = scale_of b1 /\
      MqttClient.published (MyDelegate.client d')
      = (MqttClient.published (MyDelegate.client d)
         ++ publish_if_new (MyDelegate._target_temp d)
              (PyInt (int_of_byte b0)) "kitchen/kettle/temperature/target"
         ++ publish_if_new (MyDelegate._target_temp_scale d)
              (scale_of b1) "kitchen/kettle/temperature/target/scale")%list /\
      MyDelegate._power d' = MyDelegate._power d /\
      MyDelegate._current_temp d' = MyDelegate._current_temp d /\
      MyDelegate._current_temp_scale d' = MyDelegate._current_temp_scale d /\
      awaiting_header d'.
Proof.
  intros d cHandle b0 b1 b2 b3 Hp.
  unfold awaiting_payload, awaiting_header in *.
  unfold publish_if_new, scale_of, pub.
  run_delegate. rewrite Hp. cbn. rewrite unpack_BBxx_shape. cbn.
  split_cases; eexists; (split; [reflexivity|]); cbn;
    rewrite ?app_nil_r, <- ?app_assoc; cbn; auto 10.
Qed.

(** X2. A CURRENT_TEMP payload [b0 b1 _ _] stores the reading of [b0] and the
    scale of [b1]; it publishes the reading and then the scale, each only
    when it differs from the stored value, and it leaves power and target
    temperature alone. *)
Theorem current_temp_payload :
  forall (d : MyDelegate.t) (cHandle : Z) (b0 b1 b2 b3 : byte),
    awaiting_payload MessageTypes.CURRENT_TEMP d ->
    exists d',
      MyDelegate.handleNotification cHandle [b0; b1; b2; b3] d = (Ok tt, d') /\
      MyDelegate._current_temp d' = reading_of b0 /\
      MyDelegate._current_temp_scale d' = scale_of b1 /\
      MqttClient.published (MyDelegate.client d')
      = (MqttClient.published (MyDelegate.client d)
         ++ publish_if_new (MyDelegate._current_temp d)
              (reading_of b0) "homeassistant/sensor/kettle/temperature"
         ++ publish_if_new (MyDelegate._current_temp_scale d)
              (scale_of b1) "kitchen/kettle/temperature/scale")%list /\
      MyDelegate._power d' = MyDelegate._power d /\
      MyDelegate._target_temp d' = MyDelegate._target_temp d /\
      MyDelegate._target_temp_scale d' = MyDelegate._target_temp_scale d /\
      awaiting_header d'.
Proof.
  intros d cHandle b0 b1 b2 b3 Hp.
  unfold awaiting_payload, awaiting_header in *.
  unfold publish_if_new, scale_of, reading_of, pub.
  run_delegate. rewrite Hp. cbn. rewrite unpack_BBxx_shape. cbn.
  split_cases; eexists; (split; [reflexivity|]); cbn;
    rewrite ?app_nil_r, <- ?app_assoc; cbn; auto 10.
Qed.

(** X3. A POWER payload [b0 _ _] stores ["off"] for 0 and ["on"] for 1 and
    publishes it on the switch state topic only when it differs from the
    stored value; any other byte leaves [power] and the publications as
    they were and prints the warning and the chunk.  The temperature
    fields are never touched. *)
Theorem power_payload :
  forall (d : MyDelegate.t) (cHandle : Z) (b0 b1 b2 : byte),
    awaiting_payload MessageTypes.POWER d ->
    exists d',
      MyDelegate.handleNotification cHandle [b0; b1; b2] d = (Ok tt, d') /\
      (int_of_byte b0 = 0 ->
       MyDelegate._power d' = PyStr "off" /\
       MqttClient.published (MyDelegate.client d')
       = (MqttClient.published (MyDelegate.client d)
          ++ publish_if_new (MyDelegate._power d) (PyStr "off")
               switch_state_topic)%list) /\
      (int_of_byte b0 = 1 ->
       MyDelegate._power d' = PyStr "on" /\
       MqttClient.published (MyDelegate.client d')
       = (MqttClient.published (MyDelegate.client d)
          ++ publish_if_new (MyDelegate._power d) (PyStr "on")
               switch_state_topic)%list) /\
      (int_of_byte b0 <> 0 -> int_of_byte b0 <> 1 ->
       unchanged d d' /\
       exists rest,
         MyDelegate.stdout d'
         = (MyDelegate.stdout d
            ++ Text "Unknown Power Setting" :: Repr [b0; b1; b2] :: rest)%list) /\
      MyDelegate._target_temp d' = MyDelegate._target_temp d /\
      MyDelegate._target_temp_scale d' = MyDelegate._target_temp_scale d /\
      MyDelegate._current_temp d' = MyDelegate._current_temp d /\
      MyDelegate._current_temp_scale d' = MyDelegate._current_temp_scale d /\
      awaiting_header d'.
Proof.
  intros d cHandle b0 b1 b2 Hp.
  unfold awaiting_payload, awaiting_header, unchanged in *.
  unfold publish_if_new, pub, switch_state_topic.
  run_delegate. rewrite Hp. cbn. rewrite unpack_Bxx_shape. cbn.
  destruct (int_of_byte b0 =? 0) eqn:E0;
    [|destruct (int_of_byte b0 =? 1) eqn:E1].
  - apply Z.eqb_eq in E0.
    split_cases; eexists; (split; [reflexivity|]); cbn;
      rewrite ?app_nil_r; repeat split; auto; intros; lia.
  - apply Z.eqb_eq in E1.
    split_cases; eexists; (split; [reflexivity|]); cbn;
      rewrite ?app_nil_r; repeat split; auto; intros; lia.
  - apply Z.eqb_neq in E0, E1.
    split_cases; eexists; (split; [reflexivity|]); cbn;
      repeat split; auto; try (intros; lia);
      rewrite <- ?app_assoc; cbn; eexists; reflexivity.
Qed.

Lemma feed_app (a b : list bytes) :
  forall d : MyDelegate.t,
    MyDelegate.feed (a ++ b) d
    = match MyDelegate.feed a d with
      | (Ok _, d') => MyDelegate.feed b d'
      | (Raise e, d') => (Raise e, d')
      end.
Proof.
  induction a as [|data a IH]; intros d.
  - reflexivity.
  - cbn [app MyDelegate.feed]. unfold bind.
    destruct (MyDelegate.handleNotification 0 data d) as [[[]|e] d1].
    + apply IH.
    + reflexivity.
Qed.

(** A chunk that fails the header test does nothing at all to a delegate
    that waits for a header. *)
Lemma noise_chunk_ignored (d : MyDelegate.t) (cHandle : Z) (data : bytes) :
  awaiting_header d ->
  MyDelegate.changed d = false ->
  is_header data = false ->
  MyDelegate.handleNotification cHandle data d = (Ok tt, d).
Proof.
  unfold awaiting_header, is_header. intros Hp Hc Hn.
  run_delegate. rewrite Hp, Hn. cbn. rewrite Hc. reflexivity.
Qed.

(** X4. Resynchronisation in the header state: chunks that fail the header
    test (wrong length, wrong magic bytes, empty) are skipped without a
    trace, so the chunks that follow them are decoded exactly as if the
    noise had never arrived. *)
Theorem noise_before_a_frame_is_skipped :
  forall (d : MyDelegate.t) (noise rest : list bytes),
    awaiting_header d ->
    MyDelegate.changed d = false ->
    Forall (fun data => is_header data = false) noise ->
    MyDelegate.feed noise d = (Ok tt, d) /\
    MyDelegate.feed (noise ++ rest) d = MyDelegate.feed rest d.
Proof.
  intros d noise rest Hp Hc Hnoise.
  assert (Hskip : MyDelegate.feed noise d = (Ok tt, d)).
  { induction Hnoise as [|data noise Hdata _ IH].
    - reflexivity.
    - cbn [MyDelegate.feed]. unfold bind.
      rewrite (noise_chunk_ignored d 0 data Hp Hc Hdata). exact IH. }
  split; [exact Hskip|].
  rewrite feed_app, Hskip. reflexivity.
Qed.

(** X5. While a type is pending the header test is not made: a header chunk
    is taken for the payload.  With TARGET_TEMP or CURRENT_TEMP pending
    its 3 bytes do not fit and the call raises; with any other type
    pending it is swallowed, changes nothing (as a POWER payload its first
    byte EF is no known setting), and the type it announced is lost. *)
Theorem header_while_pending_is_payload :
  forall (d : MyDelegate.t) (ty cHandle : Z) (h : byte),
    awaiting_payload ty d ->
    (ty = MessageTypes.TARGET_TEMP \/ ty = MessageTypes.CURRENT_TEMP ->
     MyDelegate.handleNotification cHandle (header h) d
     = (Raise StructError, d)) /\
    (ty <> MessageTypes.TARGET_TEMP -> ty <> MessageTypes.CURRENT_TEMP ->
     exists d',
       MyDelegate.handleNotification cHandle (header h) d = (Ok tt, d') /\
       unchanged d d' /\
       awaiting_header d').
Proof.
  intros d ty cHandle h Hp. split.
  - intros Hty. apply payload_misfit_raises with (ty := ty); [exact Hp|].
    destruct Hty as [-> | ->]; reflexivity.
  - intros H2 H3.
    unfold awaiting_payload, awaiting_header, unchanged, header in *.
    apply Z.eqb_neq in H2, H3.
    run_delegate. rewrite Hp. cbn. rewrite H2, H3.
    destruct (ty =? MessageTypes.POWER) eqn:E0.
    + rewrite unpack_Bxx_shape. cbn.
      split_cases; eexists; (split; [reflexivity|]); cbn; auto 10.
    + cbn. split_cases; eexists; (split; [reflexivity|]); cbn; auto 10.
Qed.

(** The only way [handleNotification] raises. *)
Lemma handleNotification_raises
      (d d' : MyDelegate.t) (cHandle : Z) (data : bytes) (e : exn) :
  MyDelegate.handleNotification cHandle data d = (Raise e, d') ->
  e = StructError /\ d' = d /\
  exists ty,
    awaiting_payload ty d /\ payload_fits ty data = false /\
    (ty = MessageTypes.POWER \/ ty = MessageTypes.TARGET_TEMP \/
     ty = MessageTypes.CURRENT_TEMP).
Proof.
  intros Hrun.
  destruct (MyDelegate.last_message_type d) as [ty|] eqn:Hp.
  - destruct (payload_fits ty data) eqn:Hfit.
    + destruct (payload_fits_consumed d ty cHandle data Hp Hfit)
        as (d1 & Hok & _).
      rewrite Hok in Hrun. discriminate.
    + rewrite (payload_misfit_raises d ty cHandle data Hp Hfit) in Hrun.
      injection Hrun as <- <-. repeat split.
      exists ty. repeat split; try assumption.
      unfold payload_fits in Hfit.
      destruct (ty =? MessageTypes.POWER) eqn:E0;
        [left; apply Z.eqb_eq; exact E0|].
      destruct (ty =? MessageTypes.TARGET_TEMP) eqn:E2;
        [right; left; apply Z.eqb_eq; exact E2|].
      destruct (ty =? MessageTypes.CURRENT_TEMP) eqn:E3;
        [right; right; apply Z.eqb_eq; exact E3|].
      cbn in Hfit. discriminate.
  - destruct (handleNotification_awaiting_header d cHandle data Hp)
      as (d1 & Hok & _).
    rewrite Hok in Hrun. discriminate.
Qed.

(** X6. A session can only end in [struct.error], raised by a payload chunk
    of the wrong length for POWER, TARGET_TEMP or CURRENT_TEMP; that type
    is then still pending. *)
Theorem feed_raises_only_struct_error :
  forall (chunks : list bytes) (d d' : MyDelegate.t) (e : exn),
    MyDelegate.feed chunks d = (Raise e, d') ->
    e = StructError /\
    exists ty,
      awaiting_payload ty d' /\
      (ty = MessageTypes.POWER \/ ty = MessageTypes.TARGET_TEMP \/
       ty = MessageTypes.CURRENT_TEMP).
Proof.
  induction chunks as [|data rest IH]; intros d d' e Hrun.
  - discriminate.
  - cbn [MyDelegate.feed] in Hrun. unfold bind in Hrun.
    destruct (MyDelegate.handleNotification 0 data d) as [[[]|e1] d1] eqn:Hstep.
    + apply (IH d1 d' e Hrun).
    + injection Hrun as <- <-.
      destruct (handleNotification_raises d d1 0 data e1 Hstep)
        as (-> & -> & ty & Hp & _ & Hty).
      split; [reflexivity|]. exists ty. auto.
Qed.

Ltac split_cases_with Hc :=
  repeat first
    [ rewrite Hc
    | progress cbn
    | match goal with
      | |- context [struct_unpack "Bxx" ?x] => rewrite (unpack_Bxx_shape x)
      | |- context [struct_unpack "BBxx" ?x] => rewrite (unpack_BBxx_shape x)
      | |- context [match ?x with _ => _ end] =>
          lazymatch x with
          | context [match _ with _ => _ end] => fail
          | _ => destruct x eqn:?
          end
      end ].

(** What one handled notification prints, by what it published. *)
Lemma status_line_cases (d : MyDelegate.t) (cHandle : Z) (data : bytes) :
  MyDelegate.changed d = false ->
  match MyDelegate.handleNotification cHandle data d with
  | (Ok _, d') =>
      MyDelegate.changed d' = false /\
      exists lines,
        MyDelegate.stdout d' = (MyDelegate.stdout d ++ lines)%list /\
        ((MqttClient.published (MyDelegate.client d')
          = MqttClient.published (MyDelegate.client d) /\
          (lines = [] \/
           lines = [Text "Unknown Power Setting"; Repr data])) \/
         ((exists p ps,
              MqttClient.published (MyDelegate.client d')
              = (MqttClient.published (MyDelegate.client d) ++ p :: ps)%list) /\
          lines = [Status (MyDelegate._power d') (MyDelegate._target_temp d')
                          (MyDelegate._target_temp_scale d')
                          (MyDelegate._current_temp d')
                          (MyDelegate._current_temp_scale d')]))
  | (Raise _, _) => True
  end.
Proof.
  intros Hc.
  destruct (MyDelegate.last_message_type d) as [ty|] eqn:Hp.
  - run_delegate. rewrite Hp.
    split_cases_with Hc; try exact I; (split; [reflexivity|]);
      first
        [ exists []; rewrite app_nil_r;
          split; [reflexivity | left; split; [reflexivity | left; reflexivity]]
        | eexists; split;
          [ rewrite <- ?app_assoc; cbn; reflexivity
          | left; split; [reflexivity | right; reflexivity] ]
        | eexists; split;
          [ reflexivity
          | right; split;
            [ eexists; eexists; rewrite <- ?app_assoc; cbn; reflexivity
            | reflexivity ] ] ].
  - destruct (is_header data) eqn:Hh.
    + apply header_test in Hh as [ty ->].
      run_delegate. rewrite Hp. rewrite unpack_xxB_header. cbn. rewrite Hc.
      split; [cbn; exact Hc|]. exists []. cbn. rewrite app_nil_r. auto.
    + rewrite (noise_chunk_ignored d cHandle data Hp Hc Hh).
      split; [exact Hc|]. exists []. rewrite app_nil_r. auto.
Qed.

(** X7. The status line is printed exactly when the notification published
    something, and it shows the fields as the notification left them; the
    [changed] flag is down again when the call returns. *)
Theorem status_line_iff_published :
  forall (d d' : MyDelegate.t) (cHandle : Z) (data : bytes),
    MyDelegate.changed d = false ->
    MyDelegate.handleNotification cHandle data d = (Ok tt, d') ->
    MyDelegate.changed d' = false /\
    exists lines,
      MyDelegate.stdout d' = (MyDelegate.stdout d ++ lines)%list /\
      ((MqttClient.published (MyDelegate.client d')
        = MqttClient.published (MyDelegate.client d) /\
        (lines = [] \/
         lines = [Text "Unknown Power Setting"; Repr data])) \/
       ((exists p ps,
            MqttClient.published (MyDelegate.client d')
            = (MqttClient.published (MyDelegate.client d) ++ p :: ps)%list) /\
        lines = [Status (MyDelegate._power d') (MyDelegate._target_temp d')
                        (MyDelegate._target_temp_scale d')
                        (MyDelegate._current_temp d')
                        (MyDelegate._current_temp_scale d')])).
Proof.
  intros d d' cHandle data Hc Hrun.
  pose proof (status_line_cases d cHandle data Hc) as H.
  rewrite Hrun in H. exact H.
Qed.

Lemma handleNotification_mirror_ok
      (d : MyDelegate.t) (cHandle : Z) (data : bytes) :
  mirror_ok d ->
  mirror_ok (snd (MyDelegate.handleNotification cHandle data d)).
Proof.
  unfold mirror_ok, is_scale. intros (H1 & H2 & H3 & H4 & H5).
  destruct (MyDelegate.last_message_type d) as [ty|] eqn:Hp.
  - run_delegate. rewrite Hp.
    split_cases; cbn;
      repeat match goal with
             | H : (_ <? _) = false |- _ => apply Z.ltb_ge in H
             end;
      repeat split; auto;
      match goal with
      | |- _ \/ (exists z, _ /\ PyInt (int_of_byte ?b) = PyInt z) =>
          right; exists (int_of_byte b);
          pose proof (int_of_byte_range b); split; [lia | reflexivity]
      | |- _ \/ _ \/ (exists z, _ /\ PyInt (int_of_byte ?b) = PyInt z) =>
          right; right; exists (int_of_byte b);
          pose proof (int_of_byte_range b); split; [lia | reflexivity]
      end.
  - destruct (handleNotification_awaiting_header d cHandle data Hp)
      as (d' & Hrun & Hsame & _).
    rewrite Hrun. cbn [snd].
    destruct Hsame as (_ & E1 & E2 & E3 & E4 & E5).
    rewrite E1, E2, E3, E4, E5. auto 10.
Qed.

Lemma feed_mirror_ok (chunks : list bytes) :
  forall d : MyDelegate.t,
    mirror_ok d -> mirror_ok (snd (MyDelegate.feed chunks d)).
Proof.
  induction chunks as [|data rest IH]; intros d Hd.
  - exact Hd.
  - cbn [MyDelegate.feed]. unfold bind.
    pose proof (handleNotification_mirror_ok d 0 data Hd) as Hstep.
    destruct (MyDelegate.handleNotification 0 data d) as [[[]|e] d1].
    + apply IH. exact Hstep.
    + exact Hstep.
Qed.

(** X8. Whatever chunks arrive, and whether or not the session ends in an
    exception, the mirror only ever holds: for [power], [None], ["on"] or
    ["off"]; for the target temperature, [None] or a byte value; for the
    current temperature, [None], ["--"] or a number from 40 to 255, never
    a number below 40; for each scale, [None] or one of the two degree
    signs. *)
Theorem mirror_values_are_well_formed :
  forall (log : list Publication) (chunks : list bytes),
    mirror_ok (snd (MyDelegate.feed chunks (fresh log))).
Proof.
  intros log chunks. apply feed_mirror_ok.
  unfold mirror_ok, is_scale. cbn. auto 10.
Qed.


Ltac pub_payload :=
  first
    [ solve [auto]
    | match goal with
      | |- exists z, _ /\ PyInt (int_of_byte ?b) = PyInt z =>
          exists (int_of_byte b);
          pose proof (int_of_byte_range b); split; [lia | reflexivity]
      | |- _ \/ (exists z, _ /\ PyInt (int_of_byte ?b) = PyInt z) =>
          right; exists (int_of_byte b);
          pose proof (int_of_byte_range b); split; [lia | reflexivity]
      end ].

Ltac pub_topic :=
  first
    [ solve [split; [reflexivity | pub_payload]]
    | solve [left; split; [reflexivity | pub_payload]]
    | right; pub_topic ].

Ltac pub_list :=
  repeat (apply Forall_cons;
          [unfold pub_ok; cbn; split; [reflexivity|];
           split; [reflexivity|]; pub_topic|]);
  apply Forall_nil.

Lemma handleNotification_publications
      (d : MyDelegate.t) (cHandle : Z) (data : bytes) :
  exists new,
    MqttClient.published
      (MyDelegate.client (snd (MyDelegate.handleNotification cHandle data d)))
    = (MqttClient.published (MyDelegate.client d) ++ new)%list /\
    Forall pub_ok new.
Proof.
  destruct (MyDelegate.last_message_type d) as [ty|] eqn:Hp.
  - run_delegate. rewrite Hp.
    split_cases; cbn;
      repeat match goal with
             | H : (_ <? _) = false |- _ => apply Z.ltb_ge in H
             end;
      first
        [ exists []; rewrite app_nil_r; split; [reflexivity | apply Forall_nil]
        | eexists; split;
          [rewrite <- ?app_assoc; cbn; reflexivity | pub_list] ].
  - destruct (handleNotification_awaiting_header d cHandle data Hp)
      as (d' & Hrun & Hsame & _).
    rewrite Hrun. cbn [snd]. destruct Hsame as (-> & _).
    exists []. rewrite app_nil_r. split; [reflexivity | apply Forall_nil].
Qed.

(** X9. Everything a session publishes, whatever chunks arrive: ["on"] or
    ["off"] on the switch state topic, a byte value on the target topic,
    ["--"] or a number from 40 to 255 on the sensor topic, a degree sign
    on the two scale topics; always with [qos] 0 and not retained.  What
    was published before stays in front, untouched. *)
Theorem session_publications_are_well_formed :
  forall (chunks : list bytes) (d : MyDelegate.t),
    exists new,
      MqttClient.published (MyDelegate.client (snd (MyDelegate.feed chunks d)))
      = (MqttClient.published (MyDelegate.client d) ++ new)%list /\
      Forall pub_ok new.
Proof.
  induction chunks as [|data rest IH]; intros d.
  - exists []. cbn. rewrite app_nil_r. split; [reflexivity | apply Forall_nil].
  - cbn [MyDelegate.feed]. unfold bind.
    destruct (handleNotification_publications d 0 data) as (n1 & E1 & F1).
    destruct (MyDelegate.handleNotification 0 data d) as [[[]|e] d1];
      cbn [snd] in E1.
    + destruct (IH d1) as (n2 & E2 & F2).
      exists (n1 ++ n2)%list. split.
      * rewrite E2, E1, app_assoc. reflexivity.
      * apply Forall_app. split; assumption.
    + exists n1. split; assumption.
Qed.

(** ** Further properties of the bridge *)

Ltac run_bridge :=
  unfold disconnect, on_message, power_on, power_off, link_up, connect,
    on_connect, client_publish, client_subscribe, characteristics_write,
    StaggKettle.print, bind, gets, ret, lift, modify;
  cbn.

(** X10. [connect] sends the Init frame and sets the last will only when the
    bridge is not connected yet; on a connected bridge, and so when called
    a second time, it does nothing.  It never publishes. *)
Theorem connect_is_idempotent :
  forall k : StaggKettle.t,
    connect k = (Ok tt, link_up k) /\
    connect (link_up k) = (Ok tt, link_up k) /\
    connected (link_up k) = true /\
    written (link_up k)
    = (written k ++ (if connected k then [] else [INIT_SEQ]))%list /\
    MqttClient.will (StaggKettle.client (link_up k))
    = (if connected k then MqttClient.will (StaggKettle.client k)
       else Some (mkPublication "kitchen/kettle/available" (PyStr "offline")
                                0 true)) /\
    MqttClient.published (StaggKettle.client (link_up k))
    = MqttClient.published (StaggKettle.client k) /\
    current_state (link_up k) = current_state k.
Proof.
  intros k. run_bridge.
  destruct (connected k) eqn:Hc; cbn; rewrite ?Hc, ?app_nil_r; cbn;
    repeat split; reflexivity.
Qed.

(** X11. Two commands in a row share one connection: [power_on] followed by
    [power_off] sends the Init frame at most once, before the two command
    frames, and leaves the bridge connected with [current_state] "off". *)
Theorem power_on_then_off :
  forall k : StaggKettle.t,
    exists k',
      (power_on ;; power_off) k = (Ok tt, k') /\
      written k'
      = (written k ++ (if connected k then [] else [INIT_SEQ])
         ++ [POWER_ON_SEQ; POWER_OFF_SEQ])%list /\
      current_state k' = "off" /\
      connected k' = true /\
      MqttClient.published (StaggKettle.client k')
      = MqttClient.published (StaggKettle.client k).
Proof.
  intros [[] cs cl w so]; run_bridge; eexists;
    (split; [reflexivity|]); cbn; rewrite <- ?app_assoc; cbn;
    repeat split; reflexivity.
Qed.

(** X12. [disconnect] switches the kettle off first, so on a bridge that is
    not connected it connects (Init frame) before it sends power-off; it
    leaves the bridge disconnected, and the next command sends the Init
    frame again. *)
Theorem disconnect_powers_off_first :
  forall k : StaggKettle.t,
    exists k',
      disconnect k = (Ok tt, k') /\
      connected k' = false /\
      current_state k' = "off" /\
      written k'
      = (written k ++ (if connected k then [] else [INIT_SEQ])
         ++ [POWER_OFF_SEQ])%list /\
      written (snd (power_on k'))
      = (written k' ++ [INIT_SEQ; POWER_ON_SEQ])%list.
Proof.
  intros [[] cs cl w so]; run_bridge; eexists;
    (split; [reflexivity|]); cbn; rewrite <- ?app_assoc; cbn;
    repeat split; reflexivity.
Qed.

(** X13. The payloads "on" and "off" are dispatched whatever the topic of the
    message: "on" sends the power-on frame and records "on", "off" sends
    the power-off frame and records "off". *)
Theorem on_message_dispatches_on_and_off :
  forall (k : StaggKettle.t) (tp : string),
    exists k1 k2,
      on_message (mkMessage tp [x6f; x6e]) k = (Ok tt, k1) /\
      written k1 = (written (link_up k) ++ [POWER_ON_SEQ])%list /\
      current_state k1 = "on" /\
      on_message (mkMessage tp [x6f; x66; x66]) k = (Ok tt, k2) /\
      written k2 = (written (link_up k) ++ [POWER_OFF_SEQ])%list /\
      current_state k2 = "off".
Proof.
  intros [[] cs cl w so] tp; unfold decode_utf8; run_bridge;
    eexists; eexists; repeat split; reflexivity.
Qed.

Lemma ascii_is_utf8 (data : bytes) :
  ascii_only data -> utf8_valid data = true.
Proof.
  unfold ascii_only. induction 1 as [|b r Hb _ IH].
  - reflexivity.
  - cbn [utf8_valid].
    assert (Hin : in_range 0 127 b = true).
    { unfold in_range, int_of_byte in *.
      apply andb_true_intro. split; apply N.leb_le; lia. }
    rewrite Hin. exact IH.
Qed.

(** What [on_message] writes to the kettle, in every case. *)
Lemma on_message_written (k : StaggKettle.t) (msg : MQTTMessage) :
  exists new,
    written (snd (on_message msg k)) = (written k ++ new)%list /\
    Forall switch_frame new /\
    (fst (on_message msg k) = Ok tt <-> utf8_valid (msg_payload msg) = true).
Proof.
  destruct k as [c cs cl w so]. destruct msg as [tp pl].
  cbn [msg_payload].
  destruct (on_message (mkMessage tp pl) (mk c cs cl w so)) as [r k'] eqn:Hrun.
  cbn [fst snd].
  unfold on_message, decode_utf8 in Hrun. cbn [msg_payload] in Hrun.
  destruct (utf8_valid pl) eqn:Hutf.
  - unfold bind at 1 in Hrun. unfold lift at 1 in Hrun.
    destruct (String.eqb_spec (string_of_list_byte pl) "on") as [Hon|Hon];
      [|destruct (String.eqb_spec (string_of_list_byte pl) "off")
          as [Hoff|Hoff]];
      destruct c; run_bridge; revert Hrun; run_bridge; intros Hrun;
      injection Hrun as <- <-; cbn; eexists;
      (split; [rewrite <- ?app_assoc; cbn; try reflexivity;
               rewrite app_nil_r; reflexivity|]);
      (split; [repeat (apply Forall_cons; [unfold switch_frame; auto|]);
               apply Forall_nil
              | split; reflexivity]).
  - cbn in Hrun. injection Hrun as <- <-. cbn.
    exists []. rewrite app_nil_r.
    split; [reflexivity|]. split; [apply Forall_nil|].
    split; discriminate.
Qed.

(** X14. [on_message] returns normally exactly when the payload is well-formed
    UTF-8, so for every ASCII payload; otherwise [decode] raises
    [UnicodeDecodeError] before anything is done: no command is sent,
    nothing is published, the bridge is as it was. *)
Theorem on_message_fails_only_on_ill_formed_utf8 :
  forall (k : StaggKettle.t) (msg : MQTTMessage),
    (fst (on_message msg k) = Ok tt <-> utf8_valid (msg_payload msg) = true) /\
    (utf8_valid (msg_payload msg) = false ->
     on_message msg k = (Raise UnicodeDecodeError, k)) /\
    (ascii_only (msg_payload msg) -> fst (on_message msg k) = Ok tt).
Proof.
  intros k msg.
  destruct (on_message_written k msg) as (_ & _ & _ & Hok).
  split; [exact Hok|]. split.
  - intros Hbad. unfold on_message, decode_utf8. rewrite Hbad. reflexivity.
  - intros Hascii. apply Hok, ascii_is_utf8, Hascii.
Qed.

(** X15. [on_message] never sets a temperature: whatever the topic and the
    payload (a number sent to [kitchen/kettle/temperature/set] included),
    the only frames it sends are Init, power-on and power-off. *)
Theorem on_message_sends_only_switch_frames :
  forall (k : StaggKettle.t) (msg : MQTTMessage),
    exists new,
      written (snd (on_message msg k)) = (written k ++ new)%list /\
      Forall switch_frame new.
Proof.
  intros k msg.
  destruct (on_message_written k msg) as (new & Hw & Hnew & _).
  exists new. auto.
Qed.

(** What [set_temperature] leaves behind, whether it returns or raises. *)
Lemma set_temperature_outcome (k : StaggKettle.t) (v : Z) :
  exists new,
    written (snd (set_temperature v k)) = (written k ++ new)%list /\
    Forall frame_ok new /\
    (fst (set_temperature v k) = Ok tt <-> 0 <= v <= 255) /\
    (fst (set_temperature v k) = Ok tt \/
     fst (set_temperature v k) = Raise StructError) /\
    connected (snd (set_temperature v k)) = true /\
    current_state (snd (set_temperature v k)) = current_state k /\
    MqttClient.published (StaggKettle.client (snd (set_temperature v k)))
    = MqttClient.published (StaggKettle.client k).
Proof.
  destruct (set_temperature v k) as [r k'] eqn:Hrun. cbn [fst snd].
  unfold set_temperature in Hrun. rewrite ensure_connected in Hrun.
  unfold bind, StaggKettle.print, modify, lift, characteristics_write in Hrun.
  cbn in Hrun.
  assert (Hlink : exists init,
             written (link_up k) = (written k ++ init)%list /\
             Forall frame_ok init /\
             connected (link_up k) = true /\
             current_state (link_up k) = current_state k /\
             MqttClient.published (StaggKettle.client (link_up k))
             = MqttClient.published (StaggKettle.client k)).
  { destruct k as [[] cs cl w so]; unfold link_up; run_bridge.
    - exists []. rewrite app_nil_r. repeat split. apply Forall_nil.
    - exists [INIT_SEQ]. repeat split.
      apply Forall_cons; [reflexivity | apply Forall_nil]. }
  destruct Hlink as (init & Hw & Hinit & Hc & Hcs & Hpub).
  destruct (Z_le_gt_dec 0 v) as [Hlo|Hlo];
    [destruct (Z_le_gt_dec v 255) as [Hhi|Hhi]|].
  - destruct (byte_of_int_some v (conj Hlo Hhi)) as (b & Hb & _).
    rewrite Z.mod_small in Hrun by lia. rewrite Hb in Hrun. cbn in Hrun.
    injection Hrun as <- <-. cbn.
    exists (init ++ [TARGET_TEMP_HDR ++ [x00; b; b; x01]])%list.
    rewrite Hw, <- app_assoc. repeat split; auto; try lia.
    apply Forall_app. split; [exact Hinit|].
    apply Forall_cons; [reflexivity | apply Forall_nil].
  - rewrite (byte_of_int_none v) in Hrun by lia.
    injection Hrun as <- <-. cbn.
    exists init. repeat split; auto; try discriminate; lia.
  - rewrite (byte_of_int_none v) in Hrun by lia.
    injection Hrun as <- <-. cbn.
    exists init. repeat split; auto; try discriminate; lia.
Qed.

(** X16. [set_temperature] returns normally exactly for the values 0 to 255
    and otherwise raises [struct.error]; in both cases the bridge ends up
    connected, [current_state] is untouched and nothing is published. *)
Theorem set_temperature_succeeds_exactly_on_bytes :
  forall (k : StaggKettle.t) (v : Z),
    (fst (set_temperature v k) = Ok tt <-> 0 <= v <= 255) /\
    (fst (set_temperature v k) = Ok tt \/
     fst (set_temperature v k) = Raise StructError) /\
    connected (snd (set_temperature v k)) = true /\
    current_state (snd (set_temperature v k)) = current_state k /\
    MqttClient.published (StaggKettle.client (snd (set_temperature v k)))
    = MqttClient.published (StaggKettle.client k).
Proof.
  intros k v.
  destruct (set_temperature_outcome k v) as (_ & _ & _ & H).
  exact H.
Qed.

Lemma switch_frame_ok (frame : bytes) : switch_frame frame -> frame_ok frame.
Proof.
  intros [-> | [-> | ->]]; reflexivity.
Qed.

Lemma switch_frames_written (k : StaggKettle.t) :
  (exists new, written (link_up k) = (written k ++ new)%list /\
               Forall switch_frame new) /\
  (exists new, written (snd (power_on k)) = (written k ++ new)%list /\
               Forall switch_frame new) /\
  (exists new, written (snd (power_off k)) = (written k ++ new)%list /\
               Forall switch_frame new) /\
  (exists new, written (snd (disconnect k)) = (written k ++ new)%list /\
               Forall switch_frame new).
Proof.
  destruct k as [[] cs cl w so]; run_bridge; repeat split;
    eexists;
    (split; [rewrite <- ?app_assoc; cbn; try reflexivity;
             rewrite app_nil_r; reflexivity|]);
    repeat (apply Forall_cons; [unfold switch_frame; auto|]);
    apply Forall_nil.
Qed.

(** X17. Every frame the bridge ever sends opens with the magic bytes [EF DD]:
    each method only appends to what was written, and what it appends
    keeps that shape, also when the method raises. *)
Theorem every_written_frame_has_the_magic_bytes :
  forall (k : StaggKettle.t) (v : Z) (msg : MQTTMessage),
    Forall frame_ok (written k) ->
    Forall frame_ok (written (snd (connect k))) /\
    Forall frame_ok (written (snd (power_on k))) /\
    Forall frame_ok (written (snd (power_off k))) /\
    Forall frame_ok (written (snd (set_temperature v k))) /\
    Forall frame_ok (written (snd (on_message msg k))) /\
    Forall frame_ok (written (snd (disconnect k))).
Proof.
  intros k v msg Hk.
  assert (Hsw : forall new, Forall switch_frame new -> Forall frame_ok new).
  { intros new Hnew. eapply Forall_impl; [|exact Hnew].
    exact switch_frame_ok. }
  destruct (switch_frames_written k)
    as ((n1 & E1 & F1) & (n2 & E2 & F2) & (n3 & E3 & F3) & (n4 & E4 & F4)).
  destruct (set_temperature_outcome k v) as (n5 & E5 & F5 & _).
  destruct (on_message_written k msg) as (n6 & E6 & F6 & _).
  fold (link_up k).
  rewrite E1, E2, E3, E4, E5, E6.
  repeat split; apply Forall_app; auto.
Qed.


(** ** The further properties at concrete inputs *)

Lemma target_temp_payload_witness :
  let d := pending MessageTypes.TARGET_TEMP (fresh []) in
  awaiting_payload MessageTypes.TARGET_TEMP d /\
  exists d',
    MyDelegate.handleNotification 0 [x5a; x01; x00; x00] d = (Ok tt, d') /\
    MyDelegate._target_temp d' = PyInt (int_of_byte x5a) /\
    MyDelegate._target_temp_scale d' = scale_of x01 /\
    MqttClient.published (MyDelegate.client d')
    = (MqttClient.published (MyDelegate.client d)
       ++ publish_if_new (MyDelegate._target_temp d)
            (PyInt (int_of_byte x5a)) "kitchen/kettle/temperature/target"
       ++ publish_if_new (MyDelegate._target_temp_scale d)
            (scale_of x01) "kitchen/kettle/temperature/target/scale")%list /\
    MyDelegate._power d' = MyDelegate._power d /\
    MyDelegate._current_temp d' = MyDelegate._current_temp d /\
    MyDelegate._current_temp_scale d' = MyDelegate._current_temp_scale d /\
    awaiting_header d'.
Proof.
  cbv zeta.
  assert (Hp : awaiting_payload MessageTypes.TARGET_TEMP
                 (pending MessageTypes.TARGET_TEMP (fresh [])))
    by reflexivity.
  split; [exact Hp|].
  exact (target_temp_payload
           (pending MessageTypes.TARGET_TEMP (fresh [])) 0 x5a x01 x00 x00 Hp).
Defined.

Lemma current_temp_payload_witness :
  let d := pending MessageTypes.CURRENT_TEMP (fresh []) in
  awaiting_payload MessageTypes.CURRENT_TEMP d /\
  exists d',
    MyDelegate.handleNotification 0 [x20; x00; x00; x00] d = (Ok tt, d') /\
    MyDelegate._current_temp d' = reading_of x20 /\
    MyDelegate._current_temp_scale d' = scale_of x00 /\
    MqttClient.published (MyDelegate.client d')
    = (MqttClient.published (MyDelegate.client d)
       ++ publish_if_new (MyDelegate._current_temp d)
            (reading_of x20) "homeassistant/sensor/kettle/temperature"
       ++ publish_if_new (MyDelegate._current_temp_scale d)
            (scale_of x00) "kitchen/kettle/temperature/scale")%list /\
    MyDelegate._power d' = MyDelegate._power d /\
    MyDelegate._target_temp d' = MyDelegate._target_temp d /\
    MyDelegate._target_temp_scale d' = MyDelegate._target_temp_scale d /\
    awaiting_header d'.
Proof.
  cbv zeta.
  assert (Hp : awaiting_payload MessageTypes.CURRENT_TEMP
                 (pending MessageTypes.CURRENT_TEMP (fresh [])))
    by reflexivity.
  split; [exact Hp|].
  exact (current_temp_payload
           (pending MessageTypes.CURRENT_TEMP (fresh [])) 0 x20 x00 x00 x00 Hp).
Defined.

Lemma power_payload_witness :
  let d := pending MessageTypes.POWER (fresh []) in
  awaiting_payload MessageTypes.POWER d /\
  exists d',
    MyDelegate.handleNotification 0 [x02; x00; x00] d = (Ok tt, d') /\
    (int_of_byte x02 = 0 ->
     MyDelegate._power d' = PyStr "off" /\
     MqttClient.published (MyDelegate.client d')
     = (MqttClient.published (MyDelegate.client d)
        ++ publish_if_new (MyDelegate._power d) (PyStr "off")
             switch_state_topic)%list) /\
    (int_of_byte x02 = 1 ->
     MyDelegate._power d' = PyStr "on" /\
     MqttClient.published (MyDelegate.client d')
     = (MqttClient.published (MyDelegate.client d)
        ++ publish_if_new (MyDelegate._power d) (PyStr "on")
             switch_state_topic)%list) /\
    (int_of_byte x02 <> 0 -> int_of_byte x02 <> 1 ->
     unchanged d d' /\
     exists rest,
       MyDelegate.stdout d'
       = (MyDelegate.stdout d
          ++ Text "Unknown Power Setting" :: Repr [x02; x00; x00] :: rest)%list) /\
    MyDelegate._target_temp d' = MyDelegate._target_temp d /\
    MyDelegate._target_temp_scale d' = MyDelegate._target_temp_scale d /\
    MyDelegate._current_temp d' = MyDelegate._current_temp d /\
    MyDelegate._current_temp_scale d' = MyDelegate._current_temp_scale d /\
    awaiting_header d'.
Proof.
  cbv zeta.
  assert (Hp : awaiting_payload MessageTypes.POWER
                 (pending MessageTypes.POWER (fresh [])))
    by reflexivity.
  split; [exact Hp|].
  exact (power_payload (pending MessageTypes.POWER (fresh [])) 0 x02 x00 x00 Hp).
Defined.

Lemma noise_before_a_frame_is_skipped_witness :
  let d := fresh [] in
  let noise := [[]; [xef; xdd]; [x01; x00; x00; x00]; [xef; x00; x03]] in
  let rest := [header x00; [x01; x00; x00]] in
  awaiting_header d /\
  MyDelegate.changed d = false /\
  Forall (fun data => is_header data = false) noise /\
  MyDelegate.feed noise d = (Ok tt, d) /\
  MyDelegate.feed (noise ++ rest) d = MyDelegate.feed rest d.
Proof.
  cbv zeta.
  assert (Hp : awaiting_header (fresh [])) by reflexivity.
  assert (Hc : MyDelegate.changed (fresh []) = false) by reflexivity.
  assert (Hn : Forall (fun data => is_header data = false)
                 [[]; [xef; xdd]; [x01; x00; x00; x00]; [xef; x00; x03]])
    by (repeat (apply Forall_cons; [reflexivity|]); apply Forall_nil).
  split; [exact Hp|]. split; [exact Hc|]. split; [exact Hn|].
  exact (noise_before_a_frame_is_skipped
           (fresh [])
           [[]; [xef; xdd]; [x01; x00; x00; x00]; [xef; x00; x03]]
           [header x00; [x01; x00; x00]] Hp Hc Hn).
Defined.

Lemma header_while_pending_is_payload_witness :
  let d := pending MessageTypes.CURRENT_TEMP (fresh []) in
  awaiting_payload MessageTypes.CURRENT_TEMP d /\
  (MessageTypes.CURRENT_TEMP = MessageTypes.TARGET_TEMP \/
   MessageTypes.CURRENT_TEMP = MessageTypes.CURRENT_TEMP ->
   MyDelegate.handleNotification 0 (header x00) d = (Raise StructError, d)) /\
  (MessageTypes.CURRENT_TEMP <> MessageTypes.TARGET_TEMP ->
   MessageTypes.CURRENT_TEMP <> MessageTypes.CURRENT_TEMP ->
   exists d',
     MyDelegate.handleNotification 0 (header x00) d = (Ok tt, d') /\
     unchanged d d' /\
     awaiting_header d').
Proof.
  cbv zeta.
  assert (Hp : awaiting_payload MessageTypes.CURRENT_TEMP
                 (pending MessageTypes.CURRENT_TEMP (fresh [])))
    by reflexivity.
  split; [exact Hp|].
  exact (header_while_pending_is_payload
           (pending MessageTypes.CURRENT_TEMP (fresh []))
           MessageTypes.CURRENT_TEMP 0 x00 Hp).
Defined.

Lemma feed_raises_only_struct_error_witness :
  let d := fresh [] in
  let d' := pending MessageTypes.TARGET_TEMP (fresh []) in
  let chunks := [header x02; [x5a; x01]; header x00] in
  MyDelegate.feed chunks d = (Raise StructError, d') /\
  StructError = StructError /\
  exists ty,
    awaiting_payload ty d' /\
    (ty = MessageTypes.POWER \/ ty = MessageTypes.TARGET_TEMP \/
     ty = MessageTypes.CURRENT_TEMP).
Proof.
  cbv zeta.
  assert (Hrun : MyDelegate.feed [header x02; [x5a; x01]; header x00] (fresh [])
                 = (Raise StructError,
                    pending MessageTypes.TARGET_TEMP (fresh [])))
    by (vm_compute; reflexivity).
  split; [exact Hrun|].
  exact (feed_raises_only_struct_error
           [header x02; [x5a; x01]; header x00] (fresh [])
           (pending MessageTypes.TARGET_TEMP (fresh [])) StructError Hrun).
Defined.

Lemma status_line_iff_published_witness :
  let d := pending MessageTypes.POWER (fresh []) in
  let d' := power_on_seen in
  let data := [x01; x00; x00] in
  MyDelegate.changed d = false /\
  MyDelegate.handleNotification 0 data d = (Ok tt, d') /\
  MyDelegate.changed d' = false /\
  exists lines,
    MyDelegate.stdout d' = (MyDelegate.stdout d ++ lines)%list /\
    ((MqttClient.published (MyDelegate.client d')
      = MqttClient.published (MyDelegate.client d) /\
      (lines = [] \/
       lines = [Text "Unknown Power Setting"; Repr data])) \/
     ((exists p ps,
          MqttClient.published (MyDelegate.client d')
          = (MqttClient.published (MyDelegate.client d) ++ p :: ps)%list) /\
      lines = [Status (MyDelegate._power d') (MyDelegate._target_temp d')
                      (MyDelegate._target_temp_scale d')
                      (MyDelegate._current_temp d')
                      (MyDelegate._current_temp_scale d')])).
Proof.
  cbv zeta.
  assert (Hc : MyDelegate.changed (pending MessageTypes.POWER (fresh []))
               = false) by reflexivity.
  assert (Hrun : MyDelegate.handleNotification 0 [x01; x00; x00]
                   (pending MessageTypes.POWER (fresh []))
                 = (Ok tt, power_on_seen)) by (vm_compute; reflexivity).
  split; [exact Hc|]. split; [exact Hrun|].
  exact (status_line_iff_published
           (pending MessageTypes.POWER (fresh [])) power_on_seen 0
           [x01; x00; x00] Hc Hrun).
Defined.

Lemma every_written_frame_has_the_magic_bytes_witness :
  let k := StaggKettle.mk false "off" (MqttClient.mk [] [] None)
                          [POWER_ON_SEQ] [] in
  let msg := mkMessage "homeassistant/switch/kettle/set" [x6f; x66; x66] in
  Forall frame_ok (written k) /\
  Forall frame_ok (written (snd (connect k))) /\
  Forall frame_ok (written (snd (power_on k))) /\
  Forall frame_ok (written (snd (power_off k))) /\
  Forall frame_ok (written (snd (set_temperature 85 k))) /\
  Forall frame_ok (written (snd (on_message msg k))) /\
  Forall frame_ok (written (snd (disconnect k))).
Proof.
  cbv zeta.
  assert (Hk : Forall frame_ok
                 (written (StaggKettle.mk false "off" (MqttClient.mk [] [] None)
                                          [POWER_ON_SEQ] [])))
    by (apply Forall_cons; [reflexivity | apply Forall_nil]).
  split; [exact Hk|].
  exact (every_written_frame_has_the_magic_bytes
           (StaggKettle.mk false "off" (MqttClient.mk [] [] None)
                           [POWER_ON_SEQ] [])
           85 (mkMessage "homeassistant/switch/kettle/set" [x6f; x66; x66]) Hk).
Defined.
